(** * LECO [prompt_util.py]: prompt settings, embedding cache and guided loss

    A shallow embedding of [src/prompt_util.py] and the properties of its
    three parts:

    - [PromptSettings] with its pre root validator [fill_prompts], and
      [load_prompts_from_yaml] (the configuration resolver);
    - [PromptCache] (the embedding cache, a dict bound to a class attribute);
    - [PromptPair] with [_erase], [_enhance] and [loss] (the guided loss).

    Python values are modelled as the code sees them: a loaded YAML document
    is a tree of [yaml] values, a dict with string keys is a [gmap string _],
    a Python [float] is an IEEE 754 binary64 number and an element of a
    [torch.FloatTensor] an IEEE 754 binary32 number (both as [spec_float],
    with the rounding of every operation written out by [SpecFloat]), and a
    raised exception is the [Raise] outcome of the [result] monad. *)

From Stdlib Require Import ZArith String Ascii List Bool Lia.
From Stdlib Require Import Floats.SpecFloat.
From stdpp Require Import gmap strings list fin_maps pretty.

#[local] Set Warnings "-register-all".
#[local] Open Scope Z_scope.
#[local] Open Scope string_scope.

(** ** Python outcomes *)

(** The exceptions the module can raise. [ValueError] carries its message
    (the three messages of the source). The pydantic error classes are the
    ones its field validators raise; a [ValidationError] carries the list of
    its error wrappers, each a location (a field name, or [ROOT_KEY] for a
    root validator) and the exception wrapped. *)
Inductive exn : Type :=
  | ValueError (msg : string)
  | TypeError
  | KeyError
  | AttributeError
  | OverflowError
  | RuntimeError
  | StrError
  | NoneIsNotAllowedError
  | WrongConstantError
  | FloatError
  | IntegerError
  | BoolError
  | MissingError
  | ValidationError (errors : list (string * exn)).

(** [except (ValueError, TypeError, AssertionError)]: pydantic's own error
    classes derive from [ValueError] or [TypeError], [ValidationError] derives
    from [ValueError]; [KeyError], [AttributeError], [OverflowError] and
    torch's [RuntimeError] do not. *)
Definition is_value_or_type_error (e : exn) : bool :=
  match e with
  | KeyError | AttributeError | OverflowError | RuntimeError => false
  | _ => true
  end.

Inductive result (A : Type) : Type :=
  | Ok (a : A)
  | Raise (e : exn).
Arguments Ok {A} a.
Arguments Raise {A} e.

#[global] Instance result_ret : MRet result := fun A a => Ok a.
#[global] Instance result_bind : MBind result := fun A B f m =>
  match m with
  | Ok a => f a
  | Raise e => Raise e
  end.
#[global] Instance result_fmap : FMap result := fun A B f m =>
  match m with
  | Ok a => Ok (f a)
  | Raise e => Raise e
  end.

(** A list comprehension [[f x for x in l]]: left to right, the first
    exception aborts it and nothing of the list built so far is returned. *)
Fixpoint comprehension {A B : Type} (f : A -> result B) (l : list A) : result (list B) :=
  match l with
  | [] => Ok []
  | x :: l' => y ← f x; ys ← comprehension f l'; Ok (y :: ys)
  end.

(** ** Floating point *)

(** Python's [float] is binary64; the elements of a [torch.FloatTensor] are
    binary32. *)
Module F64.
Definition prec : Z := 53.
Definition emax : Z := 1024.
Definition one : spec_float := S754_finite false 4503599627370496 (-52).
Definition zero : spec_float := S754_zero false.

(** [float(n)] for a Python int: rounded to nearest even; an int too large
    for a float raises [OverflowError]. *)
Definition of_int (n : Z) : result spec_float :=
  match binary_normalize prec emax n 0 false with
  | S754_infinity _ => Raise OverflowError
  | f => Ok f
  end.

(** [int(f)] for a Python float: truncation toward zero; [ValueError] on a
    NaN and [OverflowError] on an infinity. *)
Definition to_int (f : spec_float) : result Z :=
  match f with
  | S754_zero _ => Ok 0
  | S754_nan => Raise (ValueError "cannot convert float NaN to integer")
  | S754_infinity _ => Raise OverflowError
  | S754_finite s m e =>
      let a := match e with
               | Zneg k => Z.shiftr (Zpos m) (Zpos k)
               | _ => Z.shiftl (Zpos m) e
               end in
      Ok (if s then - a else a)
  end.
End F64.

Module F32.
Definition prec : Z := 24.
Definition emax : Z := 128.
Definition add : spec_float -> spec_float -> spec_float := SFadd prec emax.
Definition sub : spec_float -> spec_float -> spec_float := SFsub prec emax.
Definition mul : spec_float -> spec_float -> spec_float := SFmul prec emax.
Definition valid (x : spec_float) : bool := valid_binary prec emax x.

(** The binary32 number nearest to a binary64 one (ties to even), as torch
    converts a Python scalar that meets a float32 tensor. *)
Definition of_f64 (x : spec_float) : spec_float :=
  match x with
  | S754_finite s m e => binary_round prec emax s m e
  | _ => x
  end.

(** The binary32 number of an integer (exact for |n| <= 2^24). *)
Definition of_Z (n : Z) : spec_float := binary_normalize prec emax n 0 false.
End F32.

(** ** Tensors *)

(** A [torch.FloatTensor] of one dimension: its float32 elements. An
    elementwise operation on two tensors of the same length works element by
    element; a tensor of length one is broadcast against the other one; any
    other pair of lengths is torch's [RuntimeError]. *)
Module Tensor.
Abbreviation tensor := (list spec_float).

Definition broadcast (op : spec_float -> spec_float -> spec_float)
    (a b : tensor) : result tensor :=
  if (length a =? length b)%nat then Ok (zip_with op a b)
  else match a, b with
       | [x], _ => Ok (op x <$> b)
       | _, [y] => Ok ((fun x => op x y) <$> a)
       | _, _ => Raise RuntimeError
       end.

Definition sub : tensor -> tensor -> result tensor := broadcast F32.sub.
Definition add : tensor -> tensor -> result tensor := broadcast F32.add.

(** [scalar * t] for a Python float [scalar]: [float.__mul__] does not know
    tensors, so [t.__rmul__(scalar)] runs: every element times the scalar,
    in float32. *)
Definition rmul (t : tensor) (scalar : spec_float) : tensor :=
  (fun x => F32.mul x (F32.of_f64 scalar)) <$> t.

(** [2 * t] with the Python int 2. *)
Definition double (t : tensor) : tensor :=
  (fun x => F32.mul x (F32.of_Z 2)) <$> t.
End Tensor.
Import Tensor.

(** ** YAML documents *)

(** What [yaml.safe_load] returns: [None], a bool, an int, a float, a str, a
    list, or a dict. The dicts of the model have string keys, the only ones
    a call with the dict unpacked into keyword arguments takes. *)
Inductive yaml : Type :=
  | YNull
  | YBool (b : bool)
  | YInt (z : Z)
  | YFloat (f : spec_float)
  | YStr (s : string)
  | YSeq (l : list yaml)
  | YMap (m : gmap string yaml).

(** ** Python's text conversions *)

(** The three conversions between text and numbers that pydantic's
    validators call are Python builtins; the development is parametric in
    them. [None] stands for the builtin's [ValueError]. *)
Class PyText : Type := {
  str_of_float : spec_float -> string;          (* str(f) *)
  float_of_str : string -> option spec_float;   (* float(s) *)
  int_of_str : string -> option Z               (* int(s) *)
}.

(** An instance that reads no text as a number. The theorems below hold for
    every instance; this one stands in where a term has to be closed, on
    records that hold no number as text and no float where a string goes. *)
Definition no_text : PyText :=
  {| str_of_float := fun _ => "nan";
     float_of_str := fun _ => None;
     int_of_str := fun _ => None |}.

(** [s.lower()] on the ASCII letters (no other character lowers to one of
    the letters of pydantic's boolean words). *)
Definition lower_ascii (c : ascii) : ascii :=
  let n := nat_of_ascii c in
  if ((65 <=? n) && (n <=? 90))%nat then ascii_of_nat (n + 32) else c.

Fixpoint lower (s : string) : string :=
  match s with
  | EmptyString => EmptyString
  | String c s' => String (lower_ascii c) (lower s')
  end.

(** What [validate_model] gets for one field: a value, or an error wrapper
    with the field's location. *)
Inductive outcome (A : Type) : Type :=
  | Valid (a : A)
  | Invalid (loc : string) (e : exn).
Arguments Valid {A} a.
Arguments Invalid {A} loc e.

Definition wrappers {A : Type} (o : outcome A) : list (string * exn) :=
  match o with
  | Valid _ => []
  | Invalid loc e => [(loc, e)]
  end.

(** ** pydantic's field validators (pydantic 1.x, whose [root_validator] the
    source uses) *)

Section Validators.
Context `{PyText}.

(** [str(n)] for an int: its decimal digits, with a [ValueError] for an int
    of more digits than the interpreter's limit on integer string
    conversions (4300 by default). *)
Definition int_max_str_digits : nat := 4300.

Definition str_of_int (n : Z) : result string :=
  if (int_max_str_digits <? String.length (pretty (Z.abs_N n)))%nat
  then Raise (ValueError "Exceeds the limit (4300 digits) for integer string conversion; use sys.set_int_max_str_digits() to increase the limit")
  else Ok (pretty n).

(** [str]: a str is kept; an int, a bool (an int to Python) and a float are
    rendered by [str()], whose [ValueError] on a huge int is not caught here;
    anything else is a [StrError]. *)
Definition str_validator (v : yaml) : result string :=
  match v with
  | YStr s => Ok s
  | YInt z => str_of_int z
  | YBool b => Ok (if b then "True" else "False")
  | YFloat f => Ok (str_of_float f)
  | _ => Raise StrError
  end.

(** [float]: a float is kept, anything else goes through [float()], whose
    [TypeError] and [ValueError] become a [FloatError]; the [OverflowError] of
    a huge int is not caught. *)
Definition float_validator (v : yaml) : result spec_float :=
  match v with
  | YFloat f => Ok f
  | YInt z => F64.of_int z
  | YBool b => Ok (if b then F64.one else F64.zero)
  | YStr s => match float_of_str s with
              | Some f => Ok f
              | None => Raise FloatError
              end
  | _ => Raise FloatError
  end.

(** [int]: an int that is not a bool is kept, anything else goes through
    [int()], every failure of which becomes an [IntegerError]. *)
Definition int_validator (v : yaml) : result Z :=
  match v with
  | YInt z => Ok z
  | YBool b => Ok (if b then 1 else 0)
  | YFloat f => match F64.to_int f with
                | Ok z => Ok z
                | Raise _ => Raise IntegerError
                end
  | YStr s => match int_of_str s with
              | Some z => Ok z
              | None => Raise IntegerError
              end
  | _ => Raise IntegerError
  end.

Definition BOOL_TRUE : list string := ["1"; "on"; "t"; "true"; "y"; "yes"].
Definition BOOL_FALSE : list string := ["0"; "off"; "f"; "false"; "n"; "no"].

(** [bool]: a bool is kept; the numbers 1 and 0 and the lowered words of
    [BOOL_TRUE] and [BOOL_FALSE] are read; anything else is a [BoolError]. *)
Definition bool_validator (v : yaml) : result bool :=
  match v with
  | YBool b => Ok b
  | YInt 1 => Ok true
  | YInt 0 => Ok false
  | YFloat f => if SFeqb f F64.one then Ok true
                else if SFeqb f F64.zero then Ok false
                else Raise BoolError
  | YStr s => if bool_decide (lower s ∈ BOOL_TRUE) then Ok true
              else if bool_decide (lower s ∈ BOOL_FALSE) then Ok false
              else Raise BoolError
  | _ => Raise BoolError
  end.

(** [Literal[...]]: the value must be one of the permitted strings. *)
Definition literal_validator (permitted : list string) (v : yaml) : result string :=
  match v with
  | YStr s => if bool_decide (s ∈ permitted) then Ok s else Raise WrongConstantError
  | _ => Raise WrongConstantError
  end.

(** [ModelField.validate]: [None] is refused by a field whose type is not
    optional and returned as it is by an optional one, before any validator
    runs. *)
Definition validate {A : Type} (validator : yaml -> result A) (v : yaml) : result A :=
  match v with
  | YNull => Raise NoneIsNotAllowedError
  | _ => validator v
  end.

Definition validate_optional {A : Type} (validator : yaml -> result A) (v : yaml)
    : result (option A) :=
  match v with
  | YNull => Ok None
  | _ => Some <$> validator v
  end.

(** One round of [validate_model]'s loop over the fields: a missing key
    takes the default unvalidated (or is a [MissingError] when the field is
    required, [default = None]); a present value is validated, a
    [ValueError] or [TypeError] of the validator is wrapped, and any other
    exception leaves the loop. *)
Definition field {A : Type} (name : string) (default : option A)
    (validator : yaml -> result A) (input_data : gmap string yaml) : result (outcome A) :=
  match input_data !! name with
  | None => match default with
            | None => Ok (Invalid name MissingError)
            | Some d => Ok (Valid d)
            end
  | Some v => match validator v with
              | Ok a => Ok (Valid a)
              | Raise e => if is_value_or_type_error e then Ok (Invalid name e)
                           else Raise e
              end
  end.

End Validators.

(** [d[k]] on a dict. *)
Definition getitem {A : Type} (d : gmap string A) (k : string) : result A :=
  match d !! k with
  | Some v => Ok v
  | None => Raise KeyError
  end.

(** ** [PromptSettings] *)

Definition ACTION_TYPES : list string := ["erase"; "enhance"].
Definition ROOT_KEY : string := "__root__".

Module PromptSettings.

(** The validated model. [positive] and [neutral] are declared [str = None],
    which pydantic reads as optional strings. *)
Record t : Type := mk {
  target : string;
  positive : option string;
  unconditional : string;
  neutral : option string;
  action : string;
  guidance_scale : spec_float;
  resolution : Z;
  dynamic_resolution : bool;
  batch_size : Z
}.

(** The pre root validator: it sees the raw keyword arguments and decides by
    the presence of a key. *)
Definition fill_prompts (values : gmap string yaml) : result (gmap string yaml) :=
  if bool_decide ("target" ∉ dom values)
  then Raise (ValueError "target must be specified")
  else
    values ← (if bool_decide ("positive" ∉ dom values)
              then v ← getitem values "target"; Ok (<["positive" := v]> values)
              else Ok values);
    values ← (if bool_decide ("unconditional" ∉ dom values)
              then Ok (<["unconditional" := YStr ""]> values)
              else Ok values);
    values ← (if bool_decide ("neutral" ∉ dom values)
              then v ← getitem values "unconditional"; Ok (<["neutral" := v]> values)
              else Ok values);
    Ok values.

(** The end of [validate_model]: the model when no wrapper was collected,
    the [ValidationError] with all of them otherwise. *)
Definition construct (o1 : outcome string) (o2 : outcome (option string))
    (o3 : outcome string) (o4 : outcome (option string)) (o5 : outcome string)
    (o6 : outcome spec_float) (o7 : outcome Z) (o8 : outcome bool)
    (o9 : outcome Z) : result t :=
  match o1, o2, o3, o4, o5, o6, o7, o8, o9 with
  | Valid v1, Valid v2, Valid v3, Valid v4, Valid v5, Valid v6, Valid v7,
    Valid v8, Valid v9 =>
      Ok (mk v1 v2 v3 v4 v5 v6 v7 v8 v9)
  | _, _, _, _, _, _, _, _, _ =>
      Raise (ValidationError
               (wrappers o1 ++ wrappers o2 ++ wrappers o3 ++ wrappers o4 ++
                wrappers o5 ++ wrappers o6 ++ wrappers o7 ++ wrappers o8 ++
                wrappers o9))
  end.

Section Model.
Context `{PyText}.

(** [validate_model]: the pre root validator first, whose [ValueError] ends
    the validation with one wrapper at [ROOT_KEY]; then every field in the
    order of the class body, each against the filled keyword arguments. *)
Definition validate_model (input_data : gmap string yaml) : result t :=
  match fill_prompts input_data with
  | Raise e =>
      if is_value_or_type_error e then Raise (ValidationError [(ROOT_KEY, e)])
      else Raise e
  | Ok input_data =>
      o1 ← field "target" None (validate str_validator) input_data;
      o2 ← field "positive" (Some None) (validate_optional str_validator) input_data;
      o3 ← field "unconditional" (Some "") (validate str_validator) input_data;
      o4 ← field "neutral" (Some None) (validate_optional str_validator) input_data;
      o5 ← field "action" (Some "erase") (validate (literal_validator ACTION_TYPES)) input_data;
      o6 ← field "guidance_scale" (Some F64.one) (validate float_validator) input_data;
      o7 ← field "resolution" (Some 512) (validate int_validator) input_data;
      o8 ← field "dynamic_resolution" (Some false) (validate bool_validator) input_data;
      o9 ← field "batch_size" (Some 1) (validate int_validator) input_data;
      construct o1 o2 o3 o4 o5 o6 o7 o8 o9
  end.

(** The constructor, called with keyword arguments. Its own first parameter
    is named [__pydantic_self__], so a keyword of that name is a second value
    for it and Python raises a [TypeError] before anything is validated;
    otherwise the result is the model or the [ValidationError]. *)
Definition new (kwargs : gmap string yaml) : result t :=
  if bool_decide ("__pydantic_self__" ∈ dom kwargs) then Raise TypeError
  else validate_model kwargs.

End Model.
End PromptSettings.

(** ** [load_prompts_from_yaml] *)

(** [len(v)]: defined on a str, a list and a dict. *)
Definition len (v : yaml) : result nat :=
  match v with
  | YStr s => Ok (String.length s)
  | YSeq l => Ok (length l)
  | YMap m => Ok (size m)
  | _ => Raise TypeError
  end.

Fixpoint characters (s : string) : list yaml :=
  match s with
  | EmptyString => []
  | String c s' => YStr (String c EmptyString) :: characters s'
  end.

(** [for prompt in v]: the items of a list, the characters of a str, the keys
    of a dict. *)
Definition iter (v : yaml) : result (list yaml) :=
  match v with
  | YSeq l => Ok l
  | YStr s => Ok (characters s)
  | YMap m => Ok (YStr <$> (map_to_list m).*1)
  | _ => Raise TypeError
  end.

(** The unpacking of [prompt] into keyword arguments wants a mapping. *)
Definition keywords (prompt : yaml) : result (gmap string yaml) :=
  match prompt with
  | YMap m => Ok m
  | _ => Raise TypeError
  end.

Section Loader.
Context `{PyText}.

(** The function after [yaml.safe_load]: [prompts] is the loaded document. *)
Definition load_prompts_from_yaml (prompts : yaml) : result (list PromptSettings.t) :=
  n ← len prompts;
  if (n =? 0)%nat then Raise (ValueError "prompts file is empty")
  else
    items ← iter prompts;
    comprehension (fun prompt => kwargs ← keywords prompt; PromptSettings.new kwargs) items.

(** A sequence of raw records, as a document. *)
Definition records (rs : list (gmap string yaml)) : yaml := YSeq (YMap <$> rs).

End Loader.

(** ** [PromptCache] *)

(** [prompts] is a class attribute: the class body builds one dict and binds
    it to the class; an instance has no attribute of its own, so
    [self.prompts] finds the class's. The store below keeps the dict objects
    by address, the attributes of the class and the attributes of every
    instance, and [getattr] looks an attribute up in the instance first and
    in the class next. *)
Module PromptCache.

Record store : Type := mk {
  heap : gmap nat (gmap string tensor);
  class_dict : gmap string nat;
  instances : gmap nat (gmap string nat)
}.

(** The store once the class body has run: [prompts = {}]. *)
Definition class_body : store :=
  {| heap := {[ 0%nat := ∅ ]};
     class_dict := {[ "prompts" := 0%nat ]};
     instances := ∅ |}.

(** [PromptCache()]: a fresh object with an empty [__dict__] (the class has
    no [__init__]). *)
Definition new (st : store) : nat * store :=
  let self := fresh (dom (instances st)) in
  (self, {| heap := heap st;
            class_dict := class_dict st;
            instances := <[self := ∅]> (instances st) |}).

Definition getattr (self : nat) (name : string) (st : store) : result nat :=
  match instances st !! self with
  | None => Raise AttributeError
  | Some own =>
      match own !! name with
      | Some a => Ok a
      | None => match class_dict st !! name with
                | Some a => Ok a
                | None => Raise AttributeError
                end
      end
  end.

Definition deref (a : nat) (st : store) : result (gmap string tensor) :=
  match heap st !! a with
  | Some d => Ok d
  | None => Raise AttributeError
  end.

Definition __setitem__ (self : nat) (__name : string) (__value : tensor)
    (st : store) : result store :=
  a ← getattr self "prompts" st;
  d ← deref a st;
  Ok {| heap := <[a := <[__name := __value]> d]> (heap st);
        class_dict := class_dict st;
        instances := instances st |}.

(** [None] is Python's [None], the absent marker. *)
Definition __getitem__ (self : nat) (__name : string) (st : store)
    : result (option tensor) :=
  a ← getattr self "prompts" st;
  d ← deref a st;
  if bool_decide (__name ∈ dom d) then Some <$> getitem d __name
  else Ok None.

(** A run of a program that uses the class through its constructor and its
    two methods only. *)
Inductive op : Type :=
  | New
  | SetItem (self : nat) (name : string) (value : tensor)
  | GetItem (self : nat) (name : string).

Definition step (o : op) (st : store) : result store :=
  match o with
  | New => Ok (snd (new st))
  | SetItem self name value => __setitem__ self name value st
  | GetItem self name => _ ← __getitem__ self name st; Ok st
  end.

Fixpoint run (ops : list op) (st : store) : result store :=
  match ops with
  | [] => Ok st
  | o :: ops' => st' ← step o st; run ops' st'
  end.

Definition stores (o : op) (name : string) : bool :=
  match o with
  | SetItem _ n _ => bool_decide (n = name)
  | _ => false
  end.

(** What every store of a run satisfies: the class attribute is the dict
    built by the class body, the dict is there, and no instance has a
    [prompts] attribute of its own. *)
Definition wf (st : store) : Prop :=
  class_dict st !! "prompts" = Some 0%nat
  ∧ is_Some (heap st !! 0%nat)
  ∧ forall o own, instances st !! o = Some own -> own !! "prompts" = None.

(** The dict behind the class attribute. *)
Definition prompts (st : store) : gmap string tensor :=
  default ∅ (heap st !! 0%nat).

End PromptCache.

(** ** [PromptPair] *)

Module PromptPair.

(** [loss_fn] is the injected module: any function of two tensors, which may
    itself raise; [L] is what it returns. [action] is the plain string the
    constructor was given. *)
Record t (L : Type) : Type := mk {
  loss_fn : tensor -> tensor -> result L;
  target : tensor;
  positive : tensor;
  unconditional : tensor;
  neutral : tensor;
  guidance_scale : spec_float;
  resolution : Z;
  dynamic_resolution : bool;
  batch_size : Z;
  action : string
}.
Arguments mk {L}.
Arguments loss_fn {L}.
Arguments guidance_scale {L}.
Arguments action {L}.

Section Methods.
Context {L : Type}.

Definition _erase (self : t L)
    (target_latents positive_latents unconditional_latents neutral_latents : tensor)
    : result L :=
  d ← Tensor.sub positive_latents unconditional_latents;
  r ← Tensor.sub neutral_latents (Tensor.rmul d (guidance_scale self));
  loss_fn self target_latents r.

Definition _enhance (self : t L)
    (target_latents positive_latents unconditional_latents neutral_latents : tensor)
    : result L :=
  d ← Tensor.sub positive_latents unconditional_latents;
  r ← Tensor.add neutral_latents (Tensor.rmul d (guidance_scale self));
  loss_fn self target_latents r.

(** The keyword arguments of [loss] are the four latents of [_erase] and
    [_enhance]. *)
Definition loss (self : t L)
    (target_latents positive_latents unconditional_latents neutral_latents : tensor)
    : result L :=
  if bool_decide (action self = "erase") then
    _erase self target_latents positive_latents unconditional_latents neutral_latents
  else if bool_decide (action self = "enhance") then
    _enhance self target_latents positive_latents unconditional_latents neutral_latents
  else Raise (ValueError "action must be erase or enhance").

End Methods.
End PromptPair.

(** ** The specification's words *)

(** The guidance-shifted reference latent of the specification:
    [R = neutral - guidance_scale * (positive - unconditional)] for erase and
    [R = neutral + guidance_scale * (positive - unconditional)] for enhance. *)
Definition shift (guidance_scale : spec_float) (positive unconditional : tensor)
    : result tensor :=
  d ← Tensor.sub positive unconditional; Ok (Tensor.rmul d guidance_scale).

Definition erase_reference (guidance_scale : spec_float)
    (positive unconditional neutral : tensor) : result tensor :=
  s ← shift guidance_scale positive unconditional; Tensor.sub neutral s.

Definition enhance_reference (guidance_scale : spec_float)
    (positive unconditional neutral : tensor) : result tensor :=
  s ← shift guidance_scale positive unconditional; Tensor.add neutral s.

(** A loss function that hands back the reference it is given: what [loss]
    returns with it is the reference the code computed. *)
Definition observe (a b : tensor) : result tensor := Ok b.

(** The absolute difference, summed over the elements. *)
Definition absolute_difference (a b : tensor) : result spec_float :=
  d ← Tensor.sub a b;
  Ok (foldl F32.add (S754_zero false) (SFabs <$> d)).

(** A pair with the given loss function, guidance scale and action (the
    embeddings and the other settings play no part in [loss]). *)
Definition pair {L : Type} (loss_fn : tensor -> tensor -> result L)
    (guidance_scale : spec_float) (action : string) : PromptPair.t L :=
  PromptPair.mk loss_fn [] [] [] [] guidance_scale 512 false 1 action.

(** The spec's names for the exceptions of the resolver. *)
Definition MissingFieldError : exn :=
  ValidationError [(ROOT_KEY, ValueError "target must be specified")].
Definition EmptyConfigError : exn := ValueError "prompts file is empty".










(** [torch.equal]: the same length and equal elements, as floats compare
    (the two zeros are equal, a NaN equals nothing). *)
Definition tensor_equal (a b : tensor) : bool :=
  (length a =? length b)%nat && forallb (fun xy => SFeqb xy.1 xy.2) (zip a b).

Definition finite32 (x : spec_float) : bool :=
  F32.valid x && match x with S754_nan | S754_infinity _ => false | _ => true end.

(** The symmetry of the specification read as an identity of float32
    tensors: for well-formed, finite latents of one shape, the two references
    add up to twice the neutral latents. *)
Definition reflection_identity : Prop :=
  forall (g : spec_float) (p u n Re Rh : tensor),
    valid_binary F64.prec F64.emax g = true ->
    forallb finite32 (p ++ u ++ n) = true ->
    length p = length u -> length n = length p ->
    PromptPair.loss (pair observe g "erase") [] p u n = Ok Re ->
    PromptPair.loss (pair observe g "enhance") [] p u n = Ok Rh ->
    ∃ sum, Tensor.add Re Rh = Ok sum
           ∧ tensor_equal sum (Tensor.double n) = true.


(** What a run has stored last under a key, through whichever instance;
    [before] is what the dict held under the key when the run started. *)
Fixpoint last_stored (ops : list PromptCache.op) (k : string)
    (before : option tensor) : option tensor :=
  match ops with
  | [] => before
  | PromptCache.SetItem _ name value :: ops' =>
      last_stored ops' k (if decide (name = k) then Some value else before)
  | _ :: ops' => last_stored ops' k before
  end.

(** A float that is a number: not a NaN (an infinity counts), and a float
    that is finite: neither a NaN nor an infinity. *)
Definition is_number (x : spec_float) : bool :=
  match x with S754_nan => false | _ => true end.

Definition is_finite (x : spec_float) : bool :=
  match x with S754_nan | S754_infinity _ => false | _ => true end.





(** * Properties *)

(** ** The result monad *)

Lemma bind_Ok {A B : Type} (f : A -> result B) (a : A) : (Ok a ≫= f) = f a.
Proof. reflexivity. Qed.


Lemma bind_assoc {A B C : Type} (m : result A) (f : A -> result B) (g : B -> result C) :
  ((m ≫= f) ≫= g) = (m ≫= fun a => f a ≫= g).
Proof. destruct m; reflexivity. Qed.

(** ** Float32 arithmetic: negation commutes with rounding *)

Section Opposite.
Variables prec emax : Z.

Lemma binary_round_aux_opp s m e l :
  binary_round_aux prec emax (negb s) m e l = SFopp (binary_round_aux prec emax s m e l).
Proof.
  unfold binary_round_aux.
  destruct (shr_fexp prec emax m e l) as [mrs e'].
  destruct (shr_fexp prec emax _ e' loc_Exact) as [mrs' e''].
  destruct (shr_m mrs'); [reflexivity | | reflexivity].
  destruct (Z.leb e'' (Z.sub emax prec)); reflexivity.
Qed.

Lemma binary_round_opp s m e :
  binary_round prec emax (negb s) m e = SFopp (binary_round prec emax s m e).
Proof.
  unfold binary_round.
  destruct (shl_align m e _) as [mz ez]. apply binary_round_aux_opp.
Qed.

Lemma SFmul_opp_r x y :
  SFmul prec emax x (SFopp y) = SFopp (SFmul prec emax x y).
Proof.
  destruct x as [sx|sx| |sx mx ex], y as [sy|sy| |sy my ey]; simpl;
    try reflexivity; try (destruct sx, sy; reflexivity).
  rewrite <- binary_round_aux_opp. f_equal. destruct sx, sy; reflexivity.
Qed.

Lemma SFsub_add_opp x y :
  SFsub prec emax x y = SFadd prec emax x (SFopp y).
Proof.
  destruct x as [sx|sx| |sx mx ex], y as [sy|sy| |sy my ey]; simpl;
    try reflexivity; destruct sx, sy; reflexivity.
Qed.

End Opposite.

Lemma of_f64_opp g : F32.of_f64 (SFopp g) = SFopp (F32.of_f64 g).
Proof. destruct g; simpl; try reflexivity. apply binary_round_opp. Qed.

(** ** Tensors *)

Lemma rmul_opp (d : tensor) (g : spec_float) :
  Tensor.rmul d (SFopp g) = SFopp <$> Tensor.rmul d g.
Proof.
  unfold Tensor.rmul. rewrite <- list_fmap_compose.
  apply list_fmap_ext. intros i x _. simpl.
  rewrite of_f64_opp. apply SFmul_opp_r.
Qed.

Lemma F32_sub_add_opp x y : F32.sub x y = F32.add x (SFopp y).
Proof. apply SFsub_add_opp. Qed.

Lemma fmap_sub_l x (s : tensor) : F32.sub x <$> s = F32.add x <$> (SFopp <$> s).
Proof.
  rewrite <- list_fmap_compose. apply list_fmap_ext.
  intros i z _. apply F32_sub_add_opp.
Qed.

Lemma fmap_sub_r y (n : tensor) :
  (fun x => F32.sub x y) <$> n = (fun x => F32.add x (SFopp y)) <$> n.
Proof. apply list_fmap_ext. intros i z _. apply F32_sub_add_opp. Qed.

Lemma sub_add_opp (n s : tensor) :
  Tensor.sub n s = Tensor.add n (SFopp <$> s).
Proof.
  unfold Tensor.sub, Tensor.add, Tensor.broadcast. rewrite length_fmap.
  destruct (length n =? length s)%nat.
  - f_equal. rewrite zip_with_fmap_r.
    apply zip_with_ext; [intros x y; apply F32_sub_add_opp | reflexivity | reflexivity].
  - destruct n as [|x [|x' n']].
    + destruct s as [|y [|y' s']]; reflexivity.
    + rewrite <- fmap_sub_l. destruct s as [|y [|y' s']]; reflexivity.
    + destruct s as [|y [|y' s']]; try reflexivity.
      change (SFopp <$> [y]) with [SFopp y]. cbv iota beta.
      rewrite <- fmap_sub_r. reflexivity.
Qed.

(** Two tensors of the same length always combine, element by element. *)
Lemma broadcast_same_length op (a b : tensor) :
  length a = length b -> Tensor.broadcast op a b = Ok (zip_with op a b).
Proof.
  intros Hlen. unfold Tensor.broadcast.
  rewrite (proj2 (Nat.eqb_eq _ _) Hlen). reflexivity.
Qed.

Lemma length_rmul (d : tensor) (g : spec_float) : length (Tensor.rmul d g) = length d.
Proof. apply length_fmap. Qed.

(** ** The guided loss *)

(** What the code hands to [loss_fn] under erase and enhance is the
    specification's reference. *)
Lemma _erase_reference {L : Type} (self : PromptPair.t L) (t p u n : tensor) :
  PromptPair._erase self t p u n
  = (R ← erase_reference (PromptPair.guidance_scale self) p u n;
     PromptPair.loss_fn self t R).
Proof.
  unfold PromptPair._erase, erase_reference, shift.
  destruct (Tensor.sub p u) as [d|e]; reflexivity.
Qed.

Lemma _enhance_reference {L : Type} (self : PromptPair.t L) (t p u n : tensor) :
  PromptPair._enhance self t p u n
  = (R ← enhance_reference (PromptPair.guidance_scale self) p u n;
     PromptPair.loss_fn self t R).
Proof.
  unfold PromptPair._enhance, enhance_reference, shift.
  destruct (Tensor.sub p u) as [d|e]; reflexivity.
Qed.

Lemma erase_reference_total (g : spec_float) (p u n : tensor) :
  length p = length u -> length n = length p ->
  erase_reference g p u n
  = Ok (zip_with F32.sub n (Tensor.rmul (zip_with F32.sub p u) g)).
Proof.
  intros Hpu Hnp. unfold erase_reference, shift, Tensor.sub.
  rewrite (broadcast_same_length _ p u Hpu). rewrite bind_Ok, bind_Ok.
  apply broadcast_same_length.
  rewrite length_rmul, length_zip_with. lia.
Qed.

(** C1. For every [PromptPair] whose action is ["erase"] and every four
    latent inputs, [loss] computes the reference
    [R = neutral - guidance_scale * (positive - unconditional)] and returns
    exactly [loss_fn target R]: [loss] is the reference handed to [loss_fn]
    and nothing else; whenever the reference is [R] the result is
    [loss_fn target R]; the reference exists for latents of one shape; and
    for target [0], positive [2], unconditional [0], neutral [0], guidance
    scale 1.0 and the absolute difference as loss function the result is 2. *)
Theorem C1_erase_loss_is_loss_fn_of_reference :
  forall (L : Type) (self : PromptPair.t L) (t p u n : tensor),
    PromptPair.action self = "erase" ->
    PromptPair.loss self t p u n
    = (R ← erase_reference (PromptPair.guidance_scale self) p u n;
       PromptPair.loss_fn self t R)
    /\ (forall R, erase_reference (PromptPair.guidance_scale self) p u n = Ok R ->
          PromptPair.loss self t p u n = PromptPair.loss_fn self t R)
    /\ (length p = length u -> length n = length p ->
          exists R, erase_reference (PromptPair.guidance_scale self) p u n = Ok R)
    /\ PromptPair.loss (pair absolute_difference F64.one "erase")
         [F32.of_Z 0] [F32.of_Z 2] [F32.of_Z 0] [F32.of_Z 0]
       = Ok (F32.of_Z 2).
Proof.
  intros L self t p u n Haction.
  assert (Hloss : PromptPair.loss self t p u n
                  = (R ← erase_reference (PromptPair.guidance_scale self) p u n;
                     PromptPair.loss_fn self t R)).
  { unfold PromptPair.loss. rewrite bool_decide_eq_true_2 by exact Haction.
    apply _erase_reference. }
  split; [|split; [|split]].
  - exact Hloss.
  - intros R HR. rewrite Hloss, HR. reflexivity.
  - intros Hpu Hnp. eexists. apply erase_reference_total; assumption.
  - vm_compute. reflexivity.
Qed.

Lemma C1_witness :
  PromptPair.loss (pair absolute_difference F64.one "erase")
    [F32.of_Z 0] [F32.of_Z 2] [F32.of_Z 0] [F32.of_Z 0]
  = absolute_difference [F32.of_Z 0] [F32.of_Z (-2)].
Proof.
  refine (proj1 (proj2 (C1_erase_loss_is_loss_fn_of_reference spec_float
           (pair absolute_difference F64.one "erase")
           [F32.of_Z 0] [F32.of_Z 2] [F32.of_Z 0] [F32.of_Z 0] eq_refl))
           [F32.of_Z (-2)] _).
  vm_compute. reflexivity.
Defined.

(** C4 (as the code has it). For fixed latents and guidance scale, the
    references the code computes under erase and under enhance are the
    neutral latents shifted by opposite amounts: with [s] the float32 shift
    [guidance_scale * (positive - unconditional)], erase's reference is
    [neutral + (-s)] and enhance's is [neutral + s], and erase's reference
    under a guidance scale [g] is enhance's reference under [-g]. *)
Theorem C4_references_are_opposite_shifts :
  forall (g : spec_float) (t p u n : tensor),
    PromptPair.loss (pair observe g "erase") t p u n = erase_reference g p u n
    /\ PromptPair.loss (pair observe g "enhance") t p u n = enhance_reference g p u n
    /\ erase_reference g p u n = enhance_reference (SFopp g) p u n
    /\ (forall s, shift g p u = Ok s ->
          erase_reference g p u n = Tensor.add n (SFopp <$> s)
          /\ enhance_reference g p u n = Tensor.add n s).
Proof.
  intros g t p u n. split; [|split; [|split; [|intros s Hs; split]]].
  - unfold PromptPair.loss. simpl. rewrite _erase_reference. simpl.
    destruct (erase_reference g p u n); reflexivity.
  - unfold PromptPair.loss. simpl. rewrite _enhance_reference. simpl.
    destruct (enhance_reference g p u n); reflexivity.
  - unfold erase_reference, enhance_reference, shift.
    destruct (Tensor.sub p u) as [d|e]; [|reflexivity].
    rewrite !bind_Ok. rewrite rmul_opp. apply sub_add_opp.
  - unfold erase_reference. rewrite Hs, bind_Ok. apply sub_add_opp.
  - unfold enhance_reference. rewrite Hs. reflexivity.
Qed.

(** C4 as stated fails: with neutral [1], positive [2^25], unconditional [0]
    and guidance scale 1.0, float32 rounds [1 - 2^25] to [-2^25] and
    [1 + 2^25] to [2^25]; the references are [-33554432] and [33554432],
    which add up to [0], not to [2]. *)
Lemma C4_counterexample : ~ reflection_identity.
Proof.
  intros Hid.
  specialize (Hid F64.one [F32.of_Z 33554432] [F32.of_Z 0] [F32.of_Z 1]
                [F32.of_Z (-33554432)] [F32.of_Z 33554432]
                eq_refl eq_refl eq_refl eq_refl eq_refl eq_refl).
  destruct Hid as (sum & Hsum & Hequal).
  vm_compute in Hsum. injection Hsum as <-.
  vm_compute in Hequal. discriminate Hequal.
Qed.

(** The other cases of the guided loss, evaluated: the specification's
    enhance example, an action that is neither erase nor enhance, and the
    four float32 values behind the failure of the sum identity. *)
Example enhance_example :
  PromptPair.loss (pair absolute_difference F64.one "enhance")
    [F32.of_Z 0] [F32.of_Z 2] [F32.of_Z 0] [F32.of_Z 0]
  = Ok (F32.of_Z 2).
Proof. vm_compute. reflexivity. Qed.

Example unknown_action_raises :
  PromptPair.loss (pair absolute_difference F64.one "invert") [] [] [] []
  = Raise (ValueError "action must be erase or enhance").
Proof. reflexivity. Qed.

Example rounded_references :
  PromptPair.loss (pair observe F64.one "erase")
    [] [F32.of_Z 33554432] [F32.of_Z 0] [F32.of_Z 1]
  = Ok [F32.of_Z (-33554432)]
  /\ PromptPair.loss (pair observe F64.one "enhance")
       [] [F32.of_Z 33554432] [F32.of_Z 0] [F32.of_Z 1]
     = Ok [F32.of_Z 33554432]
  /\ Tensor.add [F32.of_Z (-33554432)] [F32.of_Z 33554432] = Ok [F32.of_Z 0]
  /\ Tensor.double [F32.of_Z 1] = [F32.of_Z 2].
Proof. vm_compute. repeat split. Qed.

(** Where nothing is rounded away the sum identity does hold, as on the
    specification's example: the references [-2] and [2] around neutral [0]. *)
Example exact_references :
  PromptPair.loss (pair observe F64.one "erase")
    [] [F32.of_Z 2] [F32.of_Z 0] [F32.of_Z 0]
  = Ok [F32.of_Z (-2)]
  /\ PromptPair.loss (pair observe F64.one "enhance")
       [] [F32.of_Z 2] [F32.of_Z 0] [F32.of_Z 0]
     = Ok [F32.of_Z 2]
  /\ Tensor.add [F32.of_Z (-2)] [F32.of_Z 2] = Ok [F32.of_Z 0]
  /\ tensor_equal [F32.of_Z 0] (Tensor.double [F32.of_Z 0]) = true.
Proof. vm_compute. repeat split. Qed.

(** ** The pre root validator *)

(** With [target] supplied, [fill_prompts] succeeds; it adds the three
    prompts that are missing and changes no key that is there. *)
Lemma fill_prompts_spec (values : gmap string yaml) (vt : yaml) :
  values !! "target" = Some vt ->
  ∃ values',
    PromptSettings.fill_prompts values = Ok values'
    ∧ values' !! "positive" = Some (default vt (values !! "positive"))
    ∧ values' !! "unconditional" = Some (default (YStr "") (values !! "unconditional"))
    ∧ values' !! "neutral"
      = Some (default (default (YStr "") (values !! "unconditional")) (values !! "neutral"))
    ∧ (forall k, k ≠ "positive" -> k ≠ "unconditional" -> k ≠ "neutral" ->
         values' !! k = values !! k).
Proof.
  intros Ht. unfold PromptSettings.fill_prompts.
  rewrite bool_decide_eq_false_2
    by (intros Hn; apply not_elem_of_dom in Hn; congruence).
  unfold getitem. rewrite Ht.
  destruct (values !! "positive") as [vp|] eqn:Hp;
    destruct (values !! "unconditional") as [vu|] eqn:Hu;
    destruct (values !! "neutral") as [vn|] eqn:Hn;
    repeat (first
      [ rewrite bool_decide_eq_false_2
          by (intros Hd; apply not_elem_of_dom in Hd; simplify_map_eq)
      | rewrite bool_decide_eq_true_2 by (apply not_elem_of_dom; simplify_map_eq; done)
      | rewrite bind_Ok ]);
    simplify_map_eq;
    eexists; (split; [reflexivity|]); simplify_map_eq;
    repeat split; intros; simplify_map_eq; done.
Qed.

Lemma fill_prompts_missing_target (values : gmap string yaml) :
  "target" ∉ dom values ->
  PromptSettings.fill_prompts values = Raise (ValueError "target must be specified").
Proof.
  intros Hd. unfold PromptSettings.fill_prompts.
  rewrite bool_decide_eq_true_2 by exact Hd. reflexivity.
Qed.

(** A supplied key is never overwritten. *)
Lemma fill_prompts_keeps (values values' : gmap string yaml) (k : string) (v : yaml) :
  PromptSettings.fill_prompts values = Ok values' ->
  values !! k = Some v -> values' !! k = Some v.
Proof.
  intros Hfill Hk.
  destruct (values !! "target") as [vt|] eqn:Ht.
  - destruct (fill_prompts_spec values vt Ht) as (w & Hw & Hp & Hu & Hn & Hother).
    rewrite Hw in Hfill. injection Hfill as <-.
    destruct (decide (k = "positive")) as [->|Hkp];
      [rewrite Hp, Hk; reflexivity|].
    destruct (decide (k = "unconditional")) as [->|Hku];
      [rewrite Hu, Hk; reflexivity|].
    destruct (decide (k = "neutral")) as [->|Hkn];
      [rewrite Hn, Hk; reflexivity|].
    rewrite Hother by assumption. exact Hk.
  - rewrite fill_prompts_missing_target in Hfill by (apply not_elem_of_dom; exact Ht).
    discriminate.
Qed.

(** ** The fields *)

Section Fields.
Context `{PyText}.

Lemma field_present {A : Type} name (d : option A) validator
    (input_data : gmap string yaml) (v : yaml) :
  input_data !! name = Some v ->
  field name d validator input_data
  = match validator v with
    | Ok a => Ok (Valid a)
    | Raise e => if is_value_or_type_error e then Ok (Invalid name e) else Raise e
    end.
Proof. intros Hv. unfold field. rewrite Hv. reflexivity. Qed.

Lemma field_absent {A : Type} name (d : A) validator (input_data : gmap string yaml) :
  input_data !! name = None ->
  field name (Some d) validator input_data = Ok (Valid d).
Proof. intros Hv. unfold field. rewrite Hv. reflexivity. Qed.

(** A field that came out valid from a supplied value holds what its
    validator made of that value, not the default. *)
Lemma field_Valid_present {A : Type} name (d : option A) validator
    (input_data : gmap string yaml) (v : yaml) (a : A) :
  input_data !! name = Some v ->
  field name d validator input_data = Ok (Valid a) ->
  validator v = Ok a.
Proof.
  intros Hv. rewrite (field_present _ _ _ _ _ Hv).
  destruct (validator v) as [a'|e].
  - intros [= ->]. reflexivity.
  - destruct (is_value_or_type_error e); discriminate.
Qed.

(** The validators of the string, literal, integer and boolean kinds raise
    nothing but errors that pydantic wraps. *)
Lemma str_validator_caught v e :
  validate str_validator v = Raise e -> is_value_or_type_error e = true.
Proof.
  destruct v; simpl; try (intros [= <-]; reflexivity).
  unfold str_of_int. destruct (_ <? _)%nat; intros [= <-]; reflexivity.
Qed.

Lemma optional_str_validator_caught v e :
  validate_optional str_validator v = Raise e -> is_value_or_type_error e = true.
Proof.
  destruct v; simpl; try (intros [= <-]; reflexivity).
  unfold str_of_int. destruct (_ <? _)%nat; intros [= <-]; reflexivity.
Qed.




(** What the string validator accepts for a required field, it accepts for
    an optional one. *)
Lemma validate_optional_of_validate (v : yaml) (a : string) :
  validate str_validator v = Ok a ->
  validate_optional str_validator v = Ok (Some a).
Proof.
  destruct v; simpl; try (intros [= <-]; reflexivity).
  intros ->. reflexivity.
Qed.


End Fields.

(** ** [construct] *)

Lemma construct_Ok_inv o1 o2 o3 o4 o5 o6 o7 o8 o9 s :
  PromptSettings.construct o1 o2 o3 o4 o5 o6 o7 o8 o9 = Ok s ->
  o1 = Valid (PromptSettings.target s)
  ∧ o2 = Valid (PromptSettings.positive s)
  ∧ o3 = Valid (PromptSettings.unconditional s)
  ∧ o4 = Valid (PromptSettings.neutral s)
  ∧ o5 = Valid (PromptSettings.action s)
  ∧ o6 = Valid (PromptSettings.guidance_scale s)
  ∧ o7 = Valid (PromptSettings.resolution s)
  ∧ o8 = Valid (PromptSettings.dynamic_resolution s)
  ∧ o9 = Valid (PromptSettings.batch_size s).
Proof.
  destruct o1; [|discriminate]. destruct o2; [|discriminate].
  destruct o3; [|discriminate]. destruct o4; [|discriminate].
  destruct o5; [|discriminate]. destruct o6; [|discriminate].
  destruct o7; [|discriminate]. destruct o8; [|discriminate].
  destruct o9; [|discriminate].
  simpl. intros [= <-]. simpl. repeat split.
Qed.


(** ** [validate_model] *)

Section ValidateModel.
Context `{PyText}.

(** A model that was built holds, field by field, the valid outcome of the
    field on the filled keyword arguments. *)
Lemma validate_model_Ok_inv (r : gmap string yaml) (s : PromptSettings.t) :
  PromptSettings.new r = Ok s ->
  ∃ r',
    PromptSettings.fill_prompts r = Ok r'
    ∧ field "target" None (validate str_validator) r'
      = Ok (Valid (PromptSettings.target s))
    ∧ field "positive" (Some None) (validate_optional str_validator) r'
      = Ok (Valid (PromptSettings.positive s))
    ∧ field "unconditional" (Some "") (validate str_validator) r'
      = Ok (Valid (PromptSettings.unconditional s))
    ∧ field "neutral" (Some None) (validate_optional str_validator) r'
      = Ok (Valid (PromptSettings.neutral s))
    ∧ field "action" (Some "erase") (validate (literal_validator ACTION_TYPES)) r'
      = Ok (Valid (PromptSettings.action s))
    ∧ field "guidance_scale" (Some F64.one) (validate float_validator) r'
      = Ok (Valid (PromptSettings.guidance_scale s))
    ∧ field "resolution" (Some 512) (validate int_validator) r'
      = Ok (Valid (PromptSettings.resolution s))
    ∧ field "dynamic_resolution" (Some false) (validate bool_validator) r'
      = Ok (Valid (PromptSettings.dynamic_resolution s))
    ∧ field "batch_size" (Some 1) (validate int_validator) r'
      = Ok (Valid (PromptSettings.batch_size s)).
Proof.
  unfold PromptSettings.new, PromptSettings.validate_model. intros Hs.
  destruct (bool_decide ("__pydantic_self__" ∈ dom r)); [discriminate Hs|].
  destruct (PromptSettings.fill_prompts r) as [r'|e];
    [|destruct (is_value_or_type_error e); discriminate].
  exists r'. split; [reflexivity|].
  destruct (field "target" _ _ r') as [o1|]; [|discriminate].
  destruct (field "positive" _ _ r') as [o2|]; [|discriminate].
  destruct (field "unconditional" _ _ r') as [o3|]; [|discriminate].
  destruct (field "neutral" _ _ r') as [o4|]; [|discriminate].
  destruct (field "action" _ _ r') as [o5|]; [|discriminate].
  destruct (field "guidance_scale" _ _ r') as [o6|]; [|discriminate].
  destruct (field "resolution" _ _ r') as [o7|]; [|discriminate].
  destruct (field "dynamic_resolution" _ _ r') as [o8|]; [|discriminate].
  destruct (field "batch_size" _ _ r') as [o9|]; [|discriminate].
  rewrite !bind_Ok in Hs.
  destruct (construct_Ok_inv _ _ _ _ _ _ _ _ _ _ Hs)
    as (-> & -> & -> & -> & -> & -> & -> & -> & ->).
  repeat split.
Qed.


Lemma new_validate_model (r : gmap string yaml) :
  "__pydantic_self__" ∉ dom r ->
  PromptSettings.new r = PromptSettings.validate_model r.
Proof.
  intros Hd. unfold PromptSettings.new.
  rewrite bool_decide_eq_false_2 by exact Hd. reflexivity.
Qed.




End ValidateModel.

(** ** The comprehension and the loader *)

Lemma comprehension_fmap {A B C : Type} (g : B -> result C) (h : A -> B) (l : list A) :
  comprehension g (h <$> l) = comprehension (fun x => g (h x)) l.
Proof.
  induction l as [|x l IH]; [reflexivity|].
  cbn [fmap list_fmap comprehension]. rewrite <- IH. reflexivity.
Qed.

(** The first element that raises aborts the comprehension with its own
    exception, whatever follows. *)
Lemma comprehension_first_Raise {A B : Type} (f : A -> result B)
    (before : list A) (x : A) (after : list A) (oks : list B) (e : exn) :
  comprehension f before = Ok oks -> f x = Raise e ->
  comprehension f (before ++ x :: after) = Raise e.
Proof.
  revert oks. induction before as [|y before IH]; intros oks Hbefore Hx.
  - simpl. rewrite Hx. reflexivity.
  - simpl in *. destruct (f y) as [b|e']; [|discriminate].
    rewrite bind_Ok in *.
    destruct (comprehension f before) as [bs|e'] eqn:Hrest; [|discriminate].
    rewrite (IH bs eq_refl Hx). reflexivity.
Qed.


Section LoaderFacts.
Context `{PyText}.

(** On a non-empty sequence of records the loader is the comprehension of
    the constructor. *)
Lemma load_records (rs : list (gmap string yaml)) :
  rs ≠ [] ->
  load_prompts_from_yaml (records rs) = comprehension PromptSettings.new rs.
Proof.
  intros Hne. unfold load_prompts_from_yaml, records.
  cbn [len iter]. rewrite !bind_Ok, length_fmap.
  destruct rs as [|r rs]; [done|]. cbn [length Nat.eqb].
  rewrite (comprehension_fmap
             (fun prompt => kwargs ← keywords prompt; PromptSettings.new kwargs) YMap).
  reflexivity.
Qed.

End LoaderFacts.

(** ** The configuration resolver *)

(** C2. A raw record that supplies only [target] resolves with positive
    equal to the target, unconditional and neutral empty, action erase,
    guidance scale 1.0, resolution 512, dynamic resolution false and batch
    size 1: so for every string target, and for every raw value of [target]
    that the string validator accepts; a value it refuses gives the
    [ValidationError] with the wrapper of [target] first. *)
Theorem C2_only_target_takes_all_defaults :
  forall (T : PyText),
    (forall A : string,
        PromptSettings.new {[ "target" := YStr A ]}
        = Ok (PromptSettings.mk A (Some A) "" (Some "") "erase" F64.one 512 false 1))
    /\ (forall v : yaml,
          match validate str_validator v with
          | Ok a =>
              PromptSettings.new {[ "target" := v ]}
              = Ok (PromptSettings.mk a (Some a) "" (Some "") "erase" F64.one 512 false 1)
          | Raise e =>
              ∃ errors,
                PromptSettings.new {[ "target" := v ]}
                = Raise (ValidationError (("target", e) :: errors))
          end).
Proof.
  intros T. split.
  - intros A. vm_compute. reflexivity.
  - intros v.
    rewrite new_validate_model by (apply not_elem_of_dom; reflexivity).
    unfold PromptSettings.validate_model.
    change (PromptSettings.fill_prompts {[ "target" := v ]})
      with (Ok (<["neutral" := YStr ""]> (<["unconditional" := YStr ""]>
                  (<["positive" := v]> ({[ "target" := v ]} : gmap string yaml))))).
    cbv iota beta.
    rewrite (field_present "target" _ _ _ v) by reflexivity.
    rewrite (field_present "positive" _ _ _ v) by reflexivity.
    rewrite (field_present "unconditional" _ _ _ (YStr "")) by reflexivity.
    rewrite (field_present "neutral" _ _ _ (YStr "")) by reflexivity.
    rewrite (field_absent "action") by reflexivity.
    rewrite (field_absent "guidance_scale") by reflexivity.
    rewrite (field_absent "resolution") by reflexivity.
    rewrite (field_absent "dynamic_resolution") by reflexivity.
    rewrite (field_absent "batch_size") by reflexivity.
    destruct (validate str_validator v) as [a|e] eqn:Hv.
    + rewrite (validate_optional_of_validate v a Hv). reflexivity.
    + rewrite (str_validator_caught v e Hv).
      destruct (validate_optional str_validator v) as [p|e'] eqn:Hp.
      * eexists. reflexivity.
      * rewrite (optional_str_validator_caught v e' Hp). eexists. reflexivity.
Qed.

(** C3. A raw record that supplies [target] and [unconditional] but no
    [neutral]: the pre root validator sets [neutral] to the supplied
    [unconditional] value; every model built from the record has its neutral
    equal to its unconditional, which is what the validator made of the
    supplied value (the supplied string itself when it is a string); and the
    record of a string target and a string unconditional alone resolves, with
    that neutral. *)
Theorem C3_neutral_copies_supplied_unconditional :
  forall (T : PyText) (r : gmap string yaml) (vu : yaml),
    "target" ∈ dom r ->
    r !! "unconditional" = Some vu ->
    r !! "neutral" = None ->
    (∃ r', PromptSettings.fill_prompts r = Ok r'
           ∧ r' !! "unconditional" = Some vu ∧ r' !! "neutral" = Some vu)
    /\ (forall s, PromptSettings.new r = Ok s ->
          PromptSettings.neutral s = Some (PromptSettings.unconditional s)
          ∧ validate str_validator vu = Ok (PromptSettings.unconditional s))
    /\ (forall s U, vu = YStr U -> PromptSettings.new r = Ok s ->
          PromptSettings.neutral s = Some U)
    /\ (forall A U : string,
          PromptSettings.new {[ "target" := YStr A; "unconditional" := YStr U ]}
          = Ok (PromptSettings.mk A (Some A) U (Some U) "erase" F64.one 512 false 1)).
Proof.
  intros T r vu Ht Hu Hn.
  apply elem_of_dom in Ht as [vt Ht].
  destruct (fill_prompts_spec r vt Ht) as (r' & Hfill & _ & Hu' & Hn' & _).
  rewrite Hu in Hu', Hn'. rewrite Hn in Hn'. simpl in Hu', Hn'.
  assert (Hmodel : forall s, PromptSettings.new r = Ok s ->
            PromptSettings.neutral s = Some (PromptSettings.unconditional s)
            ∧ validate str_validator vu = Ok (PromptSettings.unconditional s)).
  { intros s Hs.
    destruct (validate_model_Ok_inv r s Hs)
      as (r'' & Hfill' & _ & _ & Hfu & Hfn & _).
    rewrite Hfill in Hfill'. injection Hfill' as <-.
    pose proof (field_Valid_present _ _ _ _ _ _ Hu' Hfu) as Hvu.
    pose proof (field_Valid_present _ _ _ _ _ _ Hn' Hfn) as Hvn.
    split; [|exact Hvu].
    rewrite (validate_optional_of_validate _ _ Hvu) in Hvn. congruence. }
  split; [|split; [|split]].
  - exists r'. auto.
  - exact Hmodel.
  - intros s U -> Hs. destruct (Hmodel s Hs) as [Hneutral Hval].
    simpl in Hval. congruence.
  - intros A U. vm_compute. reflexivity.
Qed.

Lemma C3_witness :
  ∃ s,
    @PromptSettings.new no_text
      {[ "target" := YStr "A"; "unconditional" := YStr "U"; "batch_size" := YInt 4 ]}
    = Ok s
    ∧ PromptSettings.neutral s = Some "U".
Proof.
  exists (PromptSettings.mk "A" (Some "A") "U" (Some "U") "erase" F64.one 512 false 4).
  assert (Hs : @PromptSettings.new no_text
            {[ "target" := YStr "A"; "unconditional" := YStr "U"; "batch_size" := YInt 4 ]}
          = Ok (PromptSettings.mk "A" (Some "A") "U" (Some "U") "erase" F64.one 512 false 4))
    by (vm_compute; reflexivity).
  split; [exact Hs|].
  refine (proj1 (proj2 (proj2
    (C3_neutral_copies_supplied_unconditional no_text
       {[ "target" := YStr "A"; "unconditional" := YStr "U"; "batch_size" := YInt 4 ]}
       (YStr "U") _ _ _))) _ "U" eq_refl Hs).
  - apply elem_of_dom. eexists. vm_compute. reflexivity.
  - vm_compute. reflexivity.
  - vm_compute. reflexivity.
Defined.

(** C5. Defaults are decided by the presence of a key, not by the truth
    value of what it holds. For a raw record with [target]: the pre root
    validator keeps every supplied key as it is; a model built from a record
    with [positive: ""] has the empty string as positive; every defaultable
    field that the record supplies holds what its validator made of the
    supplied value, whatever that value is; and the record of a string
    target and an empty positive alone resolves, with the empty positive. *)
Theorem C5_defaults_by_presence_not_truthiness :
  forall (T : PyText) (r : gmap string yaml),
    "target" ∈ dom r ->
    (∃ r', PromptSettings.fill_prompts r = Ok r'
           ∧ forall k v, r !! k = Some v -> r' !! k = Some v)
    /\ (forall s, PromptSettings.new r = Ok s ->
          (r !! "positive" = Some (YStr "") -> PromptSettings.positive s = Some "")
          ∧ (forall v, r !! "positive" = Some v ->
               validate_optional str_validator v = Ok (PromptSettings.positive s))
          ∧ (forall v, r !! "unconditional" = Some v ->
               validate str_validator v = Ok (PromptSettings.unconditional s))
          ∧ (forall v, r !! "neutral" = Some v ->
               validate_optional str_validator v = Ok (PromptSettings.neutral s))
          ∧ (forall v, r !! "action" = Some v ->
               validate (literal_validator ACTION_TYPES) v = Ok (PromptSettings.action s))
          ∧ (forall v, r !! "guidance_scale" = Some v ->
               validate float_validator v = Ok (PromptSettings.guidance_scale s))
          ∧ (forall v, r !! "resolution" = Some v ->
               validate int_validator v = Ok (PromptSettings.resolution s))
          ∧ (forall v, r !! "dynamic_resolution" = Some v ->
               validate bool_validator v = Ok (PromptSettings.dynamic_resolution s))
          ∧ (forall v, r !! "batch_size" = Some v ->
               validate int_validator v = Ok (PromptSettings.batch_size s)))
    /\ (forall A : string,
          PromptSettings.new {[ "target" := YStr A; "positive" := YStr "" ]}
          = Ok (PromptSettings.mk A (Some "") "" (Some "") "erase" F64.one 512 false 1)).
Proof.
  intros T r Ht.
  apply elem_of_dom in Ht as [vt Ht].
  destruct (fill_prompts_spec r vt Ht) as (r' & Hfill & _).
  split; [|split].
  - exists r'. split; [exact Hfill|].
    intros k v. apply fill_prompts_keeps. exact Hfill.
  - intros s Hs.
    destruct (validate_model_Ok_inv r s Hs)
      as (r'' & Hfill' & _ & H2 & H3 & H4 & H5 & H6 & H7 & H8 & H9).
    rewrite Hfill in Hfill'. injection Hfill' as <-.
    assert (Hkeep : forall k v, r !! k = Some v -> r' !! k = Some v)
      by (intros k v; apply fill_prompts_keeps; exact Hfill).
    assert (Hpos : forall v, r !! "positive" = Some v ->
              validate_optional str_validator v = Ok (PromptSettings.positive s))
      by (intros v Hv; eapply field_Valid_present; [apply Hkeep, Hv | exact H2]).
    split.
    { intros Hv. apply Hpos in Hv. simpl in Hv. congruence. }
    split; [exact Hpos|].
    repeat split; intros v Hv;
      (eapply field_Valid_present; [apply Hkeep, Hv | eassumption]).
  - intros A. vm_compute. reflexivity.
Qed.

Lemma C5_witness :
  @PromptSettings.new no_text
    {[ "target" := YStr "A"; "positive" := YStr ""; "guidance_scale" := YInt 0 ]}
  = Ok (PromptSettings.mk "A" (Some "") "" (Some "") "erase" F64.zero 512 false 1)
  ∧ PromptSettings.positive
      (PromptSettings.mk "A" (Some "") "" (Some "") "erase" F64.zero 512 false 1)
    = Some "".
Proof.
  assert (Hs : @PromptSettings.new no_text
            {[ "target" := YStr "A"; "positive" := YStr ""; "guidance_scale" := YInt 0 ]}
          = Ok (PromptSettings.mk "A" (Some "") "" (Some "") "erase" F64.zero 512 false 1))
    by (vm_compute; reflexivity).
  split; [exact Hs|].
  refine (proj1 (proj1 (proj2
    (C5_defaults_by_presence_not_truthiness no_text
       {[ "target" := YStr "A"; "positive" := YStr ""; "guidance_scale" := YInt 0 ]} _))
    _ Hs) _).
  - apply elem_of_dom. eexists. vm_compute. reflexivity.
  - vm_compute. reflexivity.
Defined.

Section Refused.
Context `{PyText}.






End Refused.








(** C8. The resolution of an empty sequence of raw records raises
    [EmptyConfigError], the [ValueError] "prompts file is empty"; it does not
    return the empty list. *)
Theorem C8_empty_sequence_raises :
  forall (T : PyText),
    load_prompts_from_yaml (records []) = Raise EmptyConfigError
    /\ load_prompts_from_yaml (records []) ≠ Ok [].
Proof. intros T. split; [reflexivity|discriminate]. Qed.

(** The loader, evaluated: the same exception for the same record at two
    positions; an earlier record without [target] hides a later refused
    action; and an empty file, which [yaml.safe_load] reads as [None], has no
    [len]. *)
Example invert_at_two_positions :
  @load_prompts_from_yaml no_text
    (records [ {[ "target" := YStr "a"; "action" := YStr "invert" ]} ])
  = Raise (ValidationError [("action", WrongConstantError)])
  /\ @load_prompts_from_yaml no_text
       (records [ {[ "target" := YStr "a" ]};
                  {[ "target" := YStr "a"; "action" := YStr "invert" ]} ])
     = Raise (ValidationError [("action", WrongConstantError)]).
Proof. split; vm_compute; reflexivity. Qed.

Example earlier_failure_is_raised :
  @load_prompts_from_yaml no_text
    (records [ ∅; {[ "target" := YStr "a"; "action" := YStr "invert" ]} ])
  = Raise MissingFieldError.
Proof. vm_compute. reflexivity. Qed.

Example empty_file_has_no_len :
  @load_prompts_from_yaml no_text YNull = Raise TypeError.
Proof. reflexivity. Qed.

(** ** The embedding cache *)

Section Cache.
Import PromptCache.

Lemma class_body_wf : wf class_body.
Proof.
  split; [reflexivity|]. split; [eexists; reflexivity|].
  intros o own Ho. simpl in Ho. rewrite lookup_empty in Ho. discriminate.
Qed.

Lemma getattr_prompts (st : store) (self : nat) :
  wf st -> self ∈ dom (instances st) -> getattr self "prompts" st = Ok 0%nat.
Proof.
  intros (Hcls & _ & Hown) Hself. apply elem_of_dom in Hself as [own Hself].
  unfold getattr. rewrite Hself, (Hown _ _ Hself), Hcls. reflexivity.
Qed.

(** Through any instance, [__getitem__] is a lookup in the class's dict. *)
Lemma __getitem___spec (st : store) (self : nat) (k : string) :
  wf st -> self ∈ dom (instances st) ->
  __getitem__ self k st = Ok (prompts st !! k).
Proof.
  intros Hwf Hself. unfold __getitem__, prompts.
  rewrite (getattr_prompts st self Hwf Hself), bind_Ok.
  destruct Hwf as (_ & [d Hd] & _). unfold deref. rewrite Hd, bind_Ok. simpl.
  case_bool_decide as Hk.
  - apply elem_of_dom in Hk as [x Hx]. unfold getitem. rewrite Hx. reflexivity.
  - apply not_elem_of_dom in Hk. rewrite Hk. reflexivity.
Qed.

(** Through any instance, [__setitem__] is an insertion into the class's
    dict; nothing else of the store changes. *)
Lemma __setitem___spec (st : store) (self : nat) (k : string) (v : tensor) :
  wf st -> self ∈ dom (instances st) ->
  ∃ st', __setitem__ self k v st = Ok st'
         ∧ wf st'
         ∧ instances st' = instances st
         ∧ prompts st' = <[k := v]> (prompts st).
Proof.
  intros Hwf Hself. unfold __setitem__.
  rewrite (getattr_prompts st self Hwf Hself), bind_Ok.
  destruct Hwf as (Hcls & [d Hd] & Hown). unfold deref. rewrite Hd, bind_Ok.
  eexists. split; [reflexivity|]. split; [|split].
  - split; [exact Hcls|]. split; [|exact Hown].
    simpl. rewrite lookup_insert_eq. eexists. reflexivity.
  - reflexivity.
  - unfold prompts. simpl. rewrite lookup_insert_eq, Hd. reflexivity.
Qed.

Lemma new_spec (st : store) :
  wf st ->
  wf (snd (new st))
  ∧ (fst (new st) ∉ dom (instances st))
  ∧ dom (instances (snd (new st))) = {[ fst (new st) ]} ∪ dom (instances st)
  ∧ prompts (snd (new st)) = prompts st.
Proof.
  intros (Hcls & Hd & Hown). unfold new. simpl. split; [|split; [|split]].
  - split; [exact Hcls|]. split; [exact Hd|].
    intros o own Ho. simpl in Ho.
    apply lookup_insert_Some in Ho as [[_ <-]|[_ Ho]]; [reflexivity|eauto].
  - apply is_fresh.
  - apply dom_insert_L.
  - reflexivity.
Qed.

(** A step of a run keeps the store well formed and the instances alive, and
    changes the dict at the stored key only. *)
Lemma step_spec (o : op) (st st' : store) :
  wf st -> step o st = Ok st' ->
  wf st'
  ∧ dom (instances st) ⊆ dom (instances st')
  ∧ forall k, stores o k = false -> prompts st' !! k = prompts st !! k.
Proof.
  intros Hwf Hstep. destruct o as [|self name value|self name]; cbn [step] in Hstep.
  - destruct (new_spec st Hwf) as (Hwf' & _ & Hdom & Hp).
    assert (Hst' : st' = snd (new st)) by congruence. subst st'.
    split; [exact Hwf'|].
    split; [intros x Hx; rewrite Hdom; apply elem_of_union; right; exact Hx|].
    intros k _. rewrite Hp. reflexivity.
  - destruct (instances st !! self) as [own|] eqn:Hself.
    + assert (Hin : self ∈ dom (instances st)) by (apply elem_of_dom; eauto).
      destruct (__setitem___spec st self name value Hwf Hin)
        as (st1 & Hset & Hwf' & Hinst & Hp).
      rewrite Hset in Hstep. injection Hstep as <-.
      split; [exact Hwf'|]. split; [rewrite Hinst; done|].
      intros k Hk. simpl in Hk. apply bool_decide_eq_false in Hk.
      rewrite Hp. apply lookup_insert_ne. exact Hk.
    + unfold __setitem__, getattr in Hstep. rewrite Hself in Hstep. discriminate.
  - destruct (__getitem__ self name st); [|discriminate].
    injection Hstep as <-. split; [exact Hwf|]. split; [done|]. reflexivity.
Qed.

Lemma run_spec (ops : list op) (st st' : store) :
  wf st -> run ops st = Ok st' ->
  wf st'
  ∧ dom (instances st) ⊆ dom (instances st')
  ∧ forall k, forallb (fun o => negb (stores o k)) ops = true ->
              prompts st' !! k = prompts st !! k.
Proof.
  revert st. induction ops as [|o ops IH]; intros st Hwf Hrun; simpl in Hrun.
  - injection Hrun as <-. split; [exact Hwf|]. split; [done|]. reflexivity.
  - destruct (step o st) as [st1|] eqn:Hstep; [|discriminate].
    rewrite bind_Ok in Hrun.
    destruct (step_spec o st st1 Hwf Hstep) as (Hwf1 & Hdom1 & Hkeys1).
    destruct (IH st1 Hwf1 Hrun) as (Hwf' & Hdom' & Hkeys').
    split; [exact Hwf'|]. split; [etransitivity; eassumption|].
    intros k Hk. simpl in Hk. apply andb_true_iff in Hk as [Hko Hkops].
    rewrite (Hkeys' k Hkops). apply Hkeys1.
    apply negb_true_iff. exact Hko.
Qed.

End Cache.

(** C9. In every store that a run of the program reaches, and through every
    instance: [__getitem__] never raises; on a key that was never stored it
    returns [None], the absent marker; after [__setitem__] of [v] under [k]
    it returns [v]; and after a second [__setitem__] of [v2] under [k] it
    returns [v2]. *)
Theorem C9_cache_get_put_overwrite :
  forall (ops : list PromptCache.op) (st : PromptCache.store) (self : nat)
         (k : string) (v v2 : tensor),
    PromptCache.run ops PromptCache.class_body = Ok st ->
    self ∈ dom (PromptCache.instances st) ->
    (∃ o, PromptCache.__getitem__ self k st = Ok o)
    /\ (forallb (fun o => negb (PromptCache.stores o k)) ops = true ->
        PromptCache.__getitem__ self k st = Ok None)
    /\ (∃ st1,
          PromptCache.__setitem__ self k v st = Ok st1
          ∧ PromptCache.__getitem__ self k st1 = Ok (Some v)
          ∧ ∃ st2,
              PromptCache.__setitem__ self k v2 st1 = Ok st2
              ∧ PromptCache.__getitem__ self k st2 = Ok (Some v2)).
Proof.
  intros ops st self k v v2 Hrun Hself.
  destruct (run_spec ops _ st class_body_wf Hrun) as (Hwf & _ & Hkeys).
  split; [|split].
  - eexists. apply __getitem___spec; assumption.
  - intros Hnever. rewrite __getitem___spec by assumption.
    rewrite (Hkeys k Hnever). reflexivity.
  - destruct (__setitem___spec st self k v Hwf Hself)
      as (st1 & Hset1 & Hwf1 & Hinst1 & Hp1).
    assert (Hself1 : self ∈ dom (PromptCache.instances st1))
      by (rewrite Hinst1; exact Hself).
    exists st1. split; [exact Hset1|]. split.
    { rewrite __getitem___spec by assumption.
      rewrite Hp1, lookup_insert_eq. reflexivity. }
    destruct (__setitem___spec st1 self k v2 Hwf1 Hself1)
      as (st2 & Hset2 & Hwf2 & Hinst2 & Hp2).
    exists st2. split; [exact Hset2|].
    rewrite __getitem___spec; [|exact Hwf2|rewrite Hinst2; exact Hself1].
    rewrite Hp2, lookup_insert_eq. reflexivity.
Qed.

(** C10. All instances share one mapping: in every store that a run
    reaches, what one instance stores under a key another instance finds
    there. *)
Theorem C10_instances_share_the_class_dict :
  forall (ops : list PromptCache.op) (st : PromptCache.store) (c1 c2 : nat)
         (k : string) (v : tensor),
    PromptCache.run ops PromptCache.class_body = Ok st ->
    c1 ∈ dom (PromptCache.instances st) ->
    c2 ∈ dom (PromptCache.instances st) ->
    c1 ≠ c2 ->
    ∃ st', PromptCache.__setitem__ c1 k v st = Ok st'
           ∧ PromptCache.__getitem__ c2 k st' = Ok (Some v).
Proof.
  intros ops st c1 c2 k v Hrun Hc1 Hc2 _.
  destruct (run_spec ops _ st class_body_wf Hrun) as (Hwf & _ & _).
  destruct (__setitem___spec st c1 k v Hwf Hc1) as (st' & Hset & Hwf' & Hinst & Hp).
  exists st'. split; [exact Hset|].
  rewrite __getitem___spec; [|exact Hwf'|rewrite Hinst; exact Hc2].
  rewrite Hp, lookup_insert_eq. reflexivity.
Qed.

Lemma C9_witness :
  ∃ st,
    PromptCache.run
      [PromptCache.New; PromptCache.SetItem 0 "van gogh" [F32.of_Z 1]]
      PromptCache.class_body = Ok st
    ∧ PromptCache.__getitem__ 0 "monet" st = Ok None
    ∧ PromptCache.__getitem__ 0 "van gogh" st = Ok (Some [F32.of_Z 1]).
Proof.
  eexists. split; [vm_compute; reflexivity|].
  split.
  - refine (proj1 (proj2 (C9_cache_get_put_overwrite
              [PromptCache.New; PromptCache.SetItem 0 "van gogh" [F32.of_Z 1]]
              _ 0%nat "monet" [] [] _ _)) eq_refl).
    + vm_compute. reflexivity.
    + apply elem_of_dom. eexists. vm_compute. reflexivity.
  - vm_compute. reflexivity.
Defined.

Lemma C10_witness :
  ∃ st st',
    PromptCache.run [PromptCache.New; PromptCache.New] PromptCache.class_body = Ok st
    ∧ PromptCache.__setitem__ 0 "van gogh" [F32.of_Z 1] st = Ok st'
    ∧ PromptCache.__getitem__ 1 "van gogh" st' = Ok (Some [F32.of_Z 1]).
Proof.
  eexists.
  assert (Hrun : PromptCache.run [PromptCache.New; PromptCache.New]
                   PromptCache.class_body = Ok _) by (vm_compute; reflexivity).
  destruct (C10_instances_share_the_class_dict
              [PromptCache.New; PromptCache.New] _ 0%nat 1%nat "van gogh"
              [F32.of_Z 1] Hrun) as (st' & Hset & Hget).
  - apply elem_of_dom. eexists. vm_compute. reflexivity.
  - apply elem_of_dom. eexists. vm_compute. reflexivity.
  - discriminate.
  - exists st'. split; [exact Hrun|]. split; [exact Hset|exact Hget].
Defined.

(** * Further properties of the code *)

(** ** The guided loss *)

Lemma enhance_reference_total (g : spec_float) (p u n : tensor) :
  length p = length u -> length n = length p ->
  enhance_reference g p u n
  = Ok (zip_with F32.add n (Tensor.rmul (zip_with F32.sub p u) g)).
Proof.
  intros Hpu Hnp. unfold enhance_reference, shift, Tensor.sub.
  rewrite (broadcast_same_length _ p u Hpu). rewrite bind_Ok, bind_Ok.
  apply broadcast_same_length.
  rewrite length_rmul, length_zip_with. lia.
Qed.

(** X1. For every [PromptPair] whose action is ["enhance"], [loss] hands
    [loss_fn] the target latents and the reference
    [neutral + guidance_scale * (positive - unconditional)] and returns what
    [loss_fn] returns; the reference exists for latents of one shape, and then
    it has that shape. *)
Theorem X1_enhance_loss_is_loss_fn_of_reference :
  forall (L : Type) (self : PromptPair.t L) (t p u n : tensor),
    PromptPair.action self = "enhance" ->
    PromptPair.loss self t p u n
    = (R ← enhance_reference (PromptPair.guidance_scale self) p u n;
       PromptPair.loss_fn self t R)
    /\ (forall R, enhance_reference (PromptPair.guidance_scale self) p u n = Ok R ->
          PromptPair.loss self t p u n = PromptPair.loss_fn self t R)
    /\ (length p = length u -> length n = length p ->
          exists R, enhance_reference (PromptPair.guidance_scale self) p u n = Ok R
                    /\ length R = length n).
Proof.
  intros L self t p u n Haction.
  assert (Hloss : PromptPair.loss self t p u n
                  = (R ← enhance_reference (PromptPair.guidance_scale self) p u n;
                     PromptPair.loss_fn self t R)).
  { unfold PromptPair.loss. rewrite Haction.
    rewrite bool_decide_eq_false_2 by discriminate.
    rewrite bool_decide_eq_true_2 by reflexivity.
    apply _enhance_reference. }
  split; [|split].
  - exact Hloss.
  - intros R HR. rewrite Hloss, HR. reflexivity.
  - intros Hpu Hnp. eexists. split; [apply enhance_reference_total; assumption|].
    rewrite length_zip_with, length_rmul, length_zip_with. lia.
Qed.

Lemma X1_witness :
  PromptPair.loss (pair absolute_difference F64.one "enhance")
    [F32.of_Z 0] [F32.of_Z 2] [F32.of_Z 0] [F32.of_Z 0]
  = absolute_difference [F32.of_Z 0] [F32.of_Z 2].
Proof.
  refine (proj1 (proj2 (X1_enhance_loss_is_loss_fn_of_reference spec_float
           (pair absolute_difference F64.one "enhance")
           [F32.of_Z 0] [F32.of_Z 2] [F32.of_Z 0] [F32.of_Z 0] eq_refl))
           [F32.of_Z 2] _).
  vm_compute. reflexivity.
Defined.

(** X2. [loss] reads three things of the pair: its loss function, its
    guidance scale and its action. The four embeddings stored in the pair and
    its resolution, dynamic resolution and batch size never enter the result:
    the latents are the ones passed to the call. *)
Theorem X2_loss_ignores_the_stored_embeddings :
  forall (L : Type) (self other : PromptPair.t L) (t p u n : tensor),
    (forall a b, PromptPair.loss_fn self a b = PromptPair.loss_fn other a b) ->
    PromptPair.guidance_scale self = PromptPair.guidance_scale other ->
    PromptPair.action self = PromptPair.action other ->
    PromptPair.loss self t p u n = PromptPair.loss other t p u n.
Proof.
  intros L self other t p u n Hfn Hg Ha.
  unfold PromptPair.loss, PromptPair._erase, PromptPair._enhance.
  rewrite Ha, Hg.
  destruct (bool_decide (PromptPair.action other = "erase")).
  - destruct (Tensor.sub p u) as [d|e]; [|reflexivity]. rewrite !bind_Ok.
    destruct (Tensor.sub n _) as [r|e]; [|reflexivity]. rewrite !bind_Ok. apply Hfn.
  - destruct (bool_decide (PromptPair.action other = "enhance")); [|reflexivity].
    destruct (Tensor.sub p u) as [d|e]; [|reflexivity]. rewrite !bind_Ok.
    destruct (Tensor.add n _) as [r|e]; [|reflexivity]. rewrite !bind_Ok. apply Hfn.
Qed.

Lemma X2_witness :
  PromptPair.loss
    (PromptPair.mk absolute_difference [F32.of_Z 7] [F32.of_Z 8] [F32.of_Z 9] []
       F64.one 1024 true 4 "erase")
    [F32.of_Z 0] [F32.of_Z 2] [F32.of_Z 0] [F32.of_Z 0]
  = PromptPair.loss (pair absolute_difference F64.one "erase")
      [F32.of_Z 0] [F32.of_Z 2] [F32.of_Z 0] [F32.of_Z 0].
Proof.
  apply (X2_loss_ignores_the_stored_embeddings spec_float
           (PromptPair.mk absolute_difference [F32.of_Z 7] [F32.of_Z 8] [F32.of_Z 9] []
              F64.one 1024 true 4 "erase")
           (pair absolute_difference F64.one "erase")).
  - intros a b. reflexivity.
  - reflexivity.
  - reflexivity.
Defined.

(** ** The settings *)

Lemma literal_validator_Ok `{PyText} (permitted : list string) (v : yaml) (a : string) :
  validate (literal_validator permitted) v = Ok a -> v = YStr a ∧ a ∈ permitted.
Proof.
  destruct v; simpl; try discriminate.
  case_bool_decide as Hin; [|discriminate].
  intros [= <-]. split; [reflexivity|exact Hin].
Qed.

(** X3. The action of every model that is built is ["erase"] or
    ["enhance"]; so [loss] of a pair made with the guidance scale and the
    action of a built model always reaches [_erase] or [_enhance], and never
    its own [ValueError] branch. *)
Theorem X3_validated_action_reaches_erase_or_enhance :
  forall (T : PyText) (r : gmap string yaml) (s : PromptSettings.t),
    PromptSettings.new r = Ok s ->
    PromptSettings.action s ∈ ACTION_TYPES
    /\ forall (L : Type) (loss_fn : tensor -> tensor -> result L) (t p u n : tensor),
         PromptPair.loss
           (pair loss_fn (PromptSettings.guidance_scale s) (PromptSettings.action s))
           t p u n
         = (R ← (if bool_decide (PromptSettings.action s = "erase")
                 then erase_reference (PromptSettings.guidance_scale s) p u n
                 else enhance_reference (PromptSettings.guidance_scale s) p u n);
            loss_fn t R).
Proof.
  intros T r s Hs.
  destruct (validate_model_Ok_inv r s Hs) as (r' & _ & _ & _ & _ & _ & H5 & _).
  assert (Hin : PromptSettings.action s ∈ ACTION_TYPES).
  { unfold field in H5. destruct (r' !! "action") as [v|].
    - destruct (validate (literal_validator ACTION_TYPES) v) as [a|e] eqn:Hv.
      + injection H5 as <-. apply (literal_validator_Ok _ _ _ Hv).
      + destruct (is_value_or_type_error e); discriminate.
    - injection H5 as <-. apply elem_of_cons. left. reflexivity. }
  split; [exact Hin|].
  intros L loss_fn t p u n. unfold PromptPair.loss. cbn [PromptPair.action pair].
  case_bool_decide as Herase.
  - apply _erase_reference.
  - rewrite bool_decide_eq_true_2; [apply _enhance_reference|].
    unfold ACTION_TYPES in Hin.
    apply elem_of_cons in Hin as [Hin|Hin]; [contradiction|].
    apply list_elem_of_singleton in Hin. exact Hin.
Qed.

Lemma X3_witness :
  PromptSettings.action
    (PromptSettings.mk "a" (Some "a") "" (Some "") "enhance" F64.one 512 false 1)
  ∈ ACTION_TYPES.
Proof.
  refine (proj1 (X3_validated_action_reaches_erase_or_enhance no_text
            {[ "target" := YStr "a"; "action" := YStr "enhance" ]}
            (PromptSettings.mk "a" (Some "a") "" (Some "") "enhance" F64.one 512 false 1)
            _)).
  vm_compute. reflexivity.
Defined.

(** X4. What [fill_prompts] does to the keyword arguments. Without
    [target] it raises [ValueError "target must be specified"]. With
    [target] it returns the arguments with the keys [positive],
    [unconditional] and [neutral] added where they are missing and nothing
    else changed: a missing [positive] gets the value of [target], a missing
    [unconditional] the empty string, and a missing [neutral] the value that
    [unconditional] has by then. *)
Theorem X4_fill_prompts_adds_the_missing_prompts :
  forall (r : gmap string yaml),
    match r !! "target" with
    | None =>
        PromptSettings.fill_prompts r = Raise (ValueError "target must be specified")
    | Some vt =>
        ∃ r', PromptSettings.fill_prompts r = Ok r'
              ∧ r ⊆ r'
              ∧ dom r' = dom r ∪ {[ "positive"; "unconditional"; "neutral" ]}
              ∧ (r !! "positive" = None -> r' !! "positive" = Some vt)
              ∧ (r !! "unconditional" = None -> r' !! "unconditional" = Some (YStr ""))
              ∧ (r !! "neutral" = None -> r' !! "neutral" = r' !! "unconditional")
    end.
Proof.
  intros r. destruct (r !! "target") as [vt|] eqn:Ht.
  - destruct (fill_prompts_spec r vt Ht) as (r' & Hfill & Hp & Hu & Hn & Hother).
    exists r'. split; [exact Hfill|]. split; [|split; [|split; [|split]]].
    + apply map_subseteq_spec. intros k v Hk.
      eapply fill_prompts_keeps; eassumption.
    + apply set_eq. intros k.
      rewrite elem_of_union, !elem_of_dom, !elem_of_union, !elem_of_singleton.
      destruct (decide (k = "positive")) as [->|Hkp];
        [rewrite Hp; split; [intros _; right; left; left; reflexivity|eauto]|].
      destruct (decide (k = "unconditional")) as [->|Hku];
        [rewrite Hu; split; [intros _; right; left; right; reflexivity|eauto]|].
      destruct (decide (k = "neutral")) as [->|Hkn];
        [rewrite Hn; split; [intros _; right; right; reflexivity|eauto]|].
      rewrite Hother by assumption. tauto.
    + intros Hnone. rewrite Hp, Hnone. reflexivity.
    + intros Hnone. rewrite Hu, Hnone. reflexivity.
    + intros Hnone. rewrite Hn, Hu, Hnone. reflexivity.
  - apply fill_prompts_missing_target. apply not_elem_of_dom. exact Ht.
Qed.

Lemma fill_prompts_complete (r : gmap string yaml) :
  "target" ∈ dom r -> "positive" ∈ dom r -> "unconditional" ∈ dom r ->
  "neutral" ∈ dom r ->
  PromptSettings.fill_prompts r = Ok r.
Proof.
  intros Ht Hp Hu Hn. unfold PromptSettings.fill_prompts.
  rewrite (bool_decide_eq_false_2 ("target" ∉ dom r)) by (intros Hd; contradiction).
  rewrite (bool_decide_eq_false_2 ("positive" ∉ dom r)) by (intros Hd; contradiction).
  rewrite bind_Ok.
  rewrite (bool_decide_eq_false_2 ("unconditional" ∉ dom r)) by (intros Hd; contradiction).
  rewrite bind_Ok.
  rewrite (bool_decide_eq_false_2 ("neutral" ∉ dom r)) by (intros Hd; contradiction).
  reflexivity.
Qed.

(** X5. [fill_prompts] is idempotent: run on its own result it changes
    nothing. *)
Theorem X5_fill_prompts_idempotent :
  forall (r r' : gmap string yaml),
    PromptSettings.fill_prompts r = Ok r' ->
    PromptSettings.fill_prompts r' = Ok r'.
Proof.
  intros r r' Hfill.
  destruct (r !! "target") as [vt|] eqn:Ht.
  - destruct (fill_prompts_spec r vt Ht) as (w & Hw & Hp & Hu & Hn & Hother).
    rewrite Hw in Hfill. injection Hfill as <-.
    apply fill_prompts_complete; apply elem_of_dom.
    + rewrite Hother by done. eauto.
    + rewrite Hp. eauto.
    + rewrite Hu. eauto.
    + rewrite Hn. eauto.
  - rewrite fill_prompts_missing_target in Hfill by (apply not_elem_of_dom; exact Ht).
    discriminate.
Qed.

Lemma X5_witness :
  PromptSettings.fill_prompts
    (<["neutral" := YStr ""]> (<["unconditional" := YStr ""]>
       (<["positive" := YStr "a"]> {[ "target" := YStr "a" ]})))
  = Ok (<["neutral" := YStr ""]> (<["unconditional" := YStr ""]>
       (<["positive" := YStr "a"]> {[ "target" := YStr "a" ]}))).
Proof.
  apply (X5_fill_prompts_idempotent {[ "target" := YStr "a" ]}).
  reflexivity.
Defined.


Section MoreSettings.
Context `{PyText}.



End MoreSettings.



Section Errors.
Context `{PyText}.



End Errors.




(** X8. Every field that a record leaves out takes its default, whatever
    the other keys of the record are: in every model that is built, a missing
    [positive] is the model's target, a missing [unconditional] is the empty
    string, a missing [neutral] is the model's unconditional, and a missing
    [action], [guidance_scale], [resolution], [dynamic_resolution] or
    [batch_size] is ["erase"], 1.0, 512, [false] or 1. *)
Theorem X8_missing_fields_take_their_defaults :
  forall (T : PyText) (r : gmap string yaml) (s : PromptSettings.t),
    PromptSettings.new r = Ok s ->
    (r !! "positive" = None ->
       PromptSettings.positive s = Some (PromptSettings.target s))
    /\ (r !! "unconditional" = None -> PromptSettings.unconditional s = "")
    /\ (r !! "neutral" = None ->
          PromptSettings.neutral s = Some (PromptSettings.unconditional s))
    /\ (r !! "action" = None -> PromptSettings.action s = "erase")
    /\ (r !! "guidance_scale" = None -> PromptSettings.guidance_scale s = F64.one)
    /\ (r !! "resolution" = None -> PromptSettings.resolution s = 512)
    /\ (r !! "dynamic_resolution" = None -> PromptSettings.dynamic_resolution s = false)
    /\ (r !! "batch_size" = None -> PromptSettings.batch_size s = 1).
Proof.
  intros T r s Hs.
  destruct (validate_model_Ok_inv r s Hs)
    as (r' & Hfill & H1 & H2 & H3 & H4 & H5 & H6 & H7 & H8 & H9).
  destruct (r !! "target") as [vt|] eqn:Ht.
  2:{ rewrite fill_prompts_missing_target in Hfill by (apply not_elem_of_dom; exact Ht).
      discriminate. }
  destruct (fill_prompts_spec r vt Ht) as (w & Hw & Hp & Hu & Hn & Hother).
  rewrite Hw in Hfill. injection Hfill as ->.
  assert (Ht' : r' !! "target" = Some vt) by (rewrite Hother by done; exact Ht).
  pose proof (field_Valid_present _ _ _ _ _ _ Ht' H1) as Hvt.
  assert (Hdefault : forall (A : Type) name (d a : A) validator,
            name ≠ "positive" -> name ≠ "unconditional" -> name ≠ "neutral" ->
            field name (Some d) validator r' = Ok (Valid a) ->
            r !! name = None -> a = d).
  { intros A name d a validator Hn1 Hn2 Hn3 Hfield Hnone.
    rewrite field_absent in Hfield by (rewrite Hother by assumption; exact Hnone).
    congruence. }
  split; [|split; [|split; [|split; [|split; [|split; [|split]]]]]].
  - intros Hnone. rewrite Hnone in Hp. simpl in Hp.
    pose proof (field_Valid_present _ _ _ _ _ _ Hp H2) as Hvp.
    rewrite (validate_optional_of_validate _ _ Hvt) in Hvp. congruence.
  - intros Hnone. rewrite Hnone in Hu. simpl in Hu.
    pose proof (field_Valid_present _ _ _ _ _ _ Hu H3) as Hvu.
    simpl in Hvu. congruence.
  - intros Hnone. rewrite Hnone in Hn. simpl in Hn.
    pose proof (field_Valid_present _ _ _ _ _ _ Hu H3) as Hvu.
    pose proof (field_Valid_present _ _ _ _ _ _ Hn H4) as Hvn.
    rewrite (validate_optional_of_validate _ _ Hvu) in Hvn. congruence.
  - intros Hnone. eapply Hdefault; [| | |exact H5|exact Hnone]; discriminate.
  - intros Hnone. eapply Hdefault; [| | |exact H6|exact Hnone]; discriminate.
  - intros Hnone. eapply Hdefault; [| | |exact H7|exact Hnone]; discriminate.
  - intros Hnone. eapply Hdefault; [| | |exact H8|exact Hnone]; discriminate.
  - intros Hnone. eapply Hdefault; [| | |exact H9|exact Hnone]; discriminate.
Qed.

Lemma X8_witness :
  PromptSettings.positive
    (PromptSettings.mk "a" (Some "a") "u" (Some "u") "enhance" F64.one 512 false 1)
  = Some (PromptSettings.target
            (PromptSettings.mk "a" (Some "a") "u" (Some "u") "enhance" F64.one 512 false 1)).
Proof.
  refine (proj1 (X8_missing_fields_take_their_defaults no_text
            {[ "target" := YStr "a"; "unconditional" := YStr "u";
               "action" := YStr "enhance" ]}
            (PromptSettings.mk "a" (Some "a") "u" (Some "u") "enhance" F64.one 512 false 1)
            _) _).
  - vm_compute. reflexivity.
  - vm_compute. reflexivity.
Defined.

(** ** The loader *)

(** A comprehension gives a list exactly when every element gives its
    result, in order. *)
Lemma comprehension_Ok_iff {A B : Type} (f : A -> result B) (l : list A) (ys : list B) :
  comprehension f l = Ok ys ↔ Forall2 (fun x y => f x = Ok y) l ys.
Proof.
  revert ys. induction l as [|x l IH]; intros ys; simpl.
  - split.
    + intros [= <-]. constructor.
    + intros Hall. inversion Hall. reflexivity.
  - split.
    + destruct (f x) as [y|e] eqn:Hx; [|discriminate]. rewrite bind_Ok.
      destruct (comprehension f l) as [ys'|e] eqn:Hl; [|discriminate].
      rewrite bind_Ok. intros [= <-]. constructor; [exact Hx|].
      apply IH. reflexivity.
    + intros Hall. inversion Hall as [|x' y l' ys' Hx Hrest]; subst.
      rewrite Hx, bind_Ok. apply IH in Hrest. rewrite Hrest. reflexivity.
Qed.

(** X9. On a non-empty sequence of raw records the loader returns a list
    exactly when every record resolves, and the list holds the model of each
    record at the record's position: as many models as records, in order. *)
Theorem X9_loader_returns_the_models_in_order :
  forall (T : PyText) (rs : list (gmap string yaml)) (ss : list PromptSettings.t),
    rs ≠ [] ->
    (load_prompts_from_yaml (records rs) = Ok ss
     ↔ Forall2 (fun r s => PromptSettings.new r = Ok s) rs ss)
    /\ (load_prompts_from_yaml (records rs) = Ok ss ->
        length ss = length rs
        ∧ forall i r s, rs !! i = Some r -> ss !! i = Some s ->
                        PromptSettings.new r = Ok s).
Proof.
  intros T rs ss Hne. rewrite load_records by exact Hne.
  split; [apply comprehension_Ok_iff|].
  intros Hload. apply comprehension_Ok_iff in Hload.
  split; [symmetry; eapply Forall2_length; exact Hload|].
  intros i r s Hr Hs. exact (Forall2_lookup_lr _ _ _ _ _ _ Hload Hr Hs).
Qed.

Lemma X9_witness :
  @load_prompts_from_yaml no_text
    (records [ {[ "target" := YStr "a" ]};
               {[ "target" := YStr "b"; "action" := YStr "enhance" ]} ])
  = Ok [ PromptSettings.mk "a" (Some "a") "" (Some "") "erase" F64.one 512 false 1;
         PromptSettings.mk "b" (Some "b") "" (Some "") "enhance" F64.one 512 false 1 ].
Proof.
  apply (X9_loader_returns_the_models_in_order no_text
           [ {[ "target" := YStr "a" ]};
             {[ "target" := YStr "b"; "action" := YStr "enhance" ]} ]).
  - discriminate.
  - repeat constructor.
Defined.

(** X10. The loader stops at the first record that does not resolve: when
    the records before it all resolve, the exception of the loader is the
    exception of that record, whatever it is and whatever comes after. *)
Theorem X10_loader_raises_the_first_failure :
  forall (T : PyText) (before : list (gmap string yaml)) (r : gmap string yaml)
         (after : list (gmap string yaml)) (oks : list PromptSettings.t) (e : exn),
    Forall2 (fun r s => PromptSettings.new r = Ok s) before oks ->
    PromptSettings.new r = Raise e ->
    load_prompts_from_yaml (records (before ++ r :: after)) = Raise e.
Proof.
  intros T before r after oks e Hbefore Hr.
  rewrite load_records by (destruct before; discriminate).
  eapply comprehension_first_Raise; [|exact Hr].
  apply comprehension_Ok_iff. exact Hbefore.
Qed.

Lemma X10_witness :
  @load_prompts_from_yaml no_text
    (records ([ {[ "target" := YStr "a" ]} ] ++
              {[ "target" := YStr "b"; "batch_size" := YStr "many" ]} ::
              [ ∅; {[ "target" := YStr "c" ]} ]))
  = Raise (ValidationError [("batch_size", IntegerError)]).
Proof.
  apply (X10_loader_raises_the_first_failure no_text
           [ {[ "target" := YStr "a" ]} ]
           {[ "target" := YStr "b"; "batch_size" := YStr "many" ]}
           [ ∅; {[ "target" := YStr "c" ]} ]
           [ PromptSettings.mk "a" (Some "a") "" (Some "") "erase" F64.one 512 false 1 ]).
  - repeat constructor.
  - vm_compute. reflexivity.
Defined.

Section OnlyRecords.
Context `{PyText}.

(** The comprehension of the loader gives a list only on mappings. *)
Lemma loader_comprehension_mappings (l : list yaml) (ss : list PromptSettings.t) :
  comprehension (fun prompt => kwargs ← keywords prompt; PromptSettings.new kwargs) l
  = Ok ss ->
  ∃ rs, l = YMap <$> rs.
Proof.
  revert ss. induction l as [|p l IH]; intros ss Hl.
  - exists []. reflexivity.
  - simpl in Hl.
    destruct p as [| | | | | |m]; try discriminate Hl.
    cbn [keywords] in Hl. rewrite bind_Ok in Hl.
    destruct (PromptSettings.new m) as [s|e]; [|discriminate Hl].
    rewrite bind_Ok in Hl.
    destruct (comprehension _ l) as [ss'|e] eqn:Hrest; [|discriminate Hl].
    destruct (IH ss' eq_refl) as [rs ->].
    exists (m :: rs). reflexivity.
Qed.

End OnlyRecords.

(** X11. The loader returns a list only for a document that is a
    non-empty list of mappings, and the list it returns is never empty: on
    [None], a number, a str, a dict, an empty list or a list with an item
    that is not a mapping it raises. *)
Theorem X11_loader_wants_a_list_of_mappings :
  forall (T : PyText) (prompts : yaml) (ss : list PromptSettings.t),
    load_prompts_from_yaml prompts = Ok ss ->
    ∃ rs, prompts = records rs ∧ rs ≠ [] ∧ ss ≠ [].
Proof.
  intros T prompts ss Hload. unfold load_prompts_from_yaml in Hload.
  destruct prompts as [| | | |s|l|m]; try discriminate Hload.
  - destruct s as [|c s]; [discriminate Hload|]. discriminate Hload.
  - destruct l as [|p l]; [discriminate Hload|].
    cbn [len length Nat.eqb iter] in Hload. rewrite !bind_Ok in Hload.
    destruct (loader_comprehension_mappings (p :: l) ss Hload) as [rs Hrs].
    exists rs. split; [unfold records; rewrite Hrs; reflexivity|].
    split; [intros ->; discriminate Hrs|].
    intros ->. rewrite Hrs in Hload.
    rewrite (comprehension_fmap
               (fun prompt => kwargs ← keywords prompt; PromptSettings.new kwargs) YMap)
      in Hload.
    apply comprehension_Ok_iff in Hload. inversion Hload; subst. discriminate Hrs.
  - cbn [len iter] in Hload. rewrite bind_Ok in Hload.
    destruct (size m =? 0)%nat eqn:Hsize; [discriminate Hload|].
    rewrite bind_Ok in Hload.
    destruct (map_to_list m) as [|[k v] kvs] eqn:Hlist.
    + apply map_to_list_empty_iff in Hlist. subst m.
      rewrite map_size_empty in Hsize. discriminate Hsize.
    + discriminate Hload.
Qed.

Lemma X11_witness :
  ∃ rs, YSeq [ YMap {[ "target" := YStr "a" ]} ] = records rs ∧ rs ≠ []
        ∧ [ PromptSettings.mk "a" (Some "a") "" (Some "") "erase" F64.one 512 false 1 ] ≠ [].
Proof.
  apply (X11_loader_wants_a_list_of_mappings no_text).
  vm_compute. reflexivity.
Defined.

(** ** The embedding cache *)

Section MoreCache.
Import PromptCache.

Lemma run_last_stored (ops : list op) (st st' : store) (k : string) :
  wf st -> run ops st = Ok st' ->
  prompts st' !! k = last_stored ops k (prompts st !! k).
Proof.
  revert st. induction ops as [|o ops IH]; intros st Hwf Hrun; simpl in Hrun.
  - injection Hrun as <-. reflexivity.
  - destruct (step o st) as [st1|] eqn:Hstep; [|discriminate].
    rewrite bind_Ok in Hrun.
    destruct (step_spec o st st1 Hwf Hstep) as (Hwf1 & _ & Hkeys).
    rewrite (IH st1 Hwf1 Hrun).
    destruct o as [|self name value|self name]; cbn [last_stored].
    + rewrite (Hkeys k) by reflexivity. reflexivity.
    + cbn [step] in Hstep.
      destruct (instances st !! self) as [own|] eqn:Hself.
      * assert (Hin : self ∈ dom (instances st)) by (apply elem_of_dom; eauto).
        destruct (__setitem___spec st self name value Hwf Hin)
          as (st2 & Hset & _ & _ & Hp).
        rewrite Hset in Hstep. injection Hstep as <-. rewrite Hp.
        destruct (decide (name = k)) as [->|Hne].
        -- rewrite lookup_insert_eq. reflexivity.
        -- rewrite lookup_insert_ne by exact Hne. reflexivity.
      * unfold __setitem__, getattr in Hstep. rewrite Hself in Hstep. discriminate.
    + rewrite (Hkeys k) by reflexivity. reflexivity.
Qed.

Lemma last_stored_is_Some (ops : list op) (k : string) (before : option tensor) :
  is_Some before -> is_Some (last_stored ops k before).
Proof.
  revert before. induction ops as [|o ops IH]; intros before Hsome; [exact Hsome|].
  destruct o as [|self name value|self name]; cbn [last_stored]; try (apply IH, Hsome).
  apply IH. destruct (decide (name = k)); [eauto|exact Hsome].
Qed.

Lemma last_stored_after_store (ops : list op) (k : string) (before : option tensor) :
  existsb (fun o => stores o k) ops = true -> is_Some (last_stored ops k before).
Proof.
  revert before. induction ops as [|o ops IH]; intros before Hex; [discriminate Hex|].
  simpl in Hex. apply orb_true_iff in Hex as [Ho|Hops].
  - destruct o as [|self name value|self name]; try discriminate Ho.
    cbn [stores] in Ho. apply bool_decide_eq_true in Ho. subst name.
    cbn [last_stored]. rewrite decide_True by reflexivity.
    apply last_stored_is_Some. eauto.
  - destruct o as [|self name value|self name]; cbn [last_stored]; apply IH, Hops.
Qed.

End MoreCache.

(** X12. The last write wins, across instances: in every store that a run
    reaches, [__getitem__] through any instance returns the value stored last
    under the key by whichever instance stored it, and [None] when there was
    none. Constructing instances and reading change nothing. *)
Theorem X12_cache_returns_the_last_value_stored :
  forall (ops : list PromptCache.op) (st : PromptCache.store) (self : nat) (k : string),
    PromptCache.run ops PromptCache.class_body = Ok st ->
    self ∈ dom (PromptCache.instances st) ->
    PromptCache.__getitem__ self k st = Ok (last_stored ops k None).
Proof.
  intros ops st self k Hrun Hself.
  destruct (run_spec ops _ st class_body_wf Hrun) as (Hwf & _ & _).
  rewrite __getitem___spec by assumption.
  rewrite (run_last_stored ops _ st k class_body_wf Hrun). reflexivity.
Qed.

Lemma X12_witness :
  ∃ st,
    PromptCache.run
      [PromptCache.New; PromptCache.New;
       PromptCache.SetItem 0 "van gogh" [F32.of_Z 1];
       PromptCache.SetItem 1 "monet" [F32.of_Z 2];
       PromptCache.GetItem 0 "monet";
       PromptCache.SetItem 1 "van gogh" [F32.of_Z 3];
       PromptCache.New]
      PromptCache.class_body = Ok st
    ∧ PromptCache.__getitem__ 2 "van gogh" st = Ok (Some [F32.of_Z 3]).
Proof.
  eexists. split; [vm_compute; reflexivity|].
  refine (X12_cache_returns_the_last_value_stored
            [PromptCache.New; PromptCache.New;
             PromptCache.SetItem 0 "van gogh" [F32.of_Z 1];
             PromptCache.SetItem 1 "monet" [F32.of_Z 2];
             PromptCache.GetItem 0 "monet";
             PromptCache.SetItem 1 "van gogh" [F32.of_Z 3];
             PromptCache.New] _ 2%nat "van gogh" _ _).
  - vm_compute. reflexivity.
  - apply elem_of_dom. eexists. vm_compute. reflexivity.
Defined.

(** X13. Nothing is ever evicted: a key that was stored at any point of a
    run, through any instance, is found at the end of the run through every
    instance, however many writes, reads and constructions came after. *)
Theorem X13_cache_never_evicts :
  forall (ops : list PromptCache.op) (st : PromptCache.store) (self : nat) (k : string),
    PromptCache.run ops PromptCache.class_body = Ok st ->
    self ∈ dom (PromptCache.instances st) ->
    existsb (fun o => PromptCache.stores o k) ops = true ->
    ∃ v, PromptCache.__getitem__ self k st = Ok (Some v).
Proof.
  intros ops st self k Hrun Hself Hstored.
  destruct (run_spec ops _ st class_body_wf Hrun) as (Hwf & _ & _).
  rewrite __getitem___spec by assumption.
  rewrite (run_last_stored ops _ st k class_body_wf Hrun).
  destruct (last_stored_after_store ops k
              (PromptCache.prompts PromptCache.class_body !! k) Hstored) as [v Hv].
  exists v. rewrite Hv. reflexivity.
Qed.

Lemma X13_witness :
  ∃ st v,
    PromptCache.run
      [PromptCache.New; PromptCache.SetItem 0 "van gogh" [F32.of_Z 1];
       PromptCache.New; PromptCache.SetItem 1 "monet" [F32.of_Z 2]]
      PromptCache.class_body = Ok st
    ∧ PromptCache.__getitem__ 1 "van gogh" st = Ok (Some v).
Proof.
  eexists.
  assert (Hrun : PromptCache.run
                   [PromptCache.New; PromptCache.SetItem 0 "van gogh" [F32.of_Z 1];
                    PromptCache.New; PromptCache.SetItem 1 "monet" [F32.of_Z 2]]
                   PromptCache.class_body = Ok _) by (vm_compute; reflexivity).
  destruct (X13_cache_never_evicts _ _ 1%nat "van gogh" Hrun) as [v Hv].
  - apply elem_of_dom. eexists. vm_compute. reflexivity.
  - vm_compute. reflexivity.
  - exists v. split; [exact Hrun|exact Hv].
Defined.

(** ** No guidance where positive and unconditional coincide *)

Lemma F32_sub_self (x : spec_float) :
  is_finite x = true -> F32.sub x x = S754_zero false.
Proof.
  destruct x as [s|s| |s m e]; try discriminate; intros _.
  - destruct s; reflexivity.
  - unfold F32.sub, SFsub. rewrite Z.sub_diag. reflexivity.
Qed.

Lemma F32_mul_zero_l (s : bool) (g : spec_float) :
  is_finite g = true -> ∃ s', F32.mul (S754_zero s) g = S754_zero s'.
Proof.
  destruct g as [sg|sg| |sg m e]; try discriminate; intros _; eexists; reflexivity.
Qed.

Lemma SFeqb_refl (y : spec_float) : is_number y = true -> SFeqb y y = true.
Proof.
  destruct y as [s|s| |s m e]; try discriminate; intros _; unfold SFeqb, SFcompare.
  - reflexivity.
  - destruct s; reflexivity.
  - destruct s; rewrite Z.compare_refl, Pos.compare_cont_refl; reflexivity.
Qed.

Lemma F32_add_zero_r (y : spec_float) (s : bool) :
  is_number y = true -> SFeqb (F32.add y (S754_zero s)) y = true.
Proof.
  intros Hy. destruct y as [sy|sy| |sy m e]; try discriminate.
  - destruct sy, s; reflexivity.
  - apply (SFeqb_refl (S754_infinity sy)). reflexivity.
  - apply (SFeqb_refl (S754_finite sy m e)). reflexivity.
Qed.

Lemma F32_sub_zero_r (y : spec_float) (s : bool) :
  is_number y = true -> SFeqb (F32.sub y (S754_zero s)) y = true.
Proof.
  intros Hy. rewrite F32_sub_add_opp. apply F32_add_zero_r. exact Hy.
Qed.

Lemma tensor_equal_cons (x y : spec_float) (a b : tensor) :
  tensor_equal (x :: a) (y :: b) = SFeqb x y && tensor_equal a b.
Proof.
  unfold tensor_equal. cbn [length Nat.eqb zip zip_with forallb fst snd].
  destruct (length a =? length b)%nat, (SFeqb x y); reflexivity.
Qed.

(** Shifting by the scaled difference of a tensor with itself leaves a
    tensor of numbers equal to what it was. *)
Lemma no_shift (op : spec_float -> spec_float -> spec_float) (g : spec_float) :
  (forall y s, is_number y = true -> SFeqb (op y (S754_zero s)) y = true) ->
  is_finite (F32.of_f64 g) = true ->
  forall (p n : tensor),
    forallb is_finite p = true -> forallb is_number n = true ->
    length n = length p ->
    tensor_equal (zip_with op n (Tensor.rmul (zip_with F32.sub p p) g)) n = true.
Proof.
  intros Hop Hg p. induction p as [|x p IH]; intros n Hp Hn Hlen.
  - destruct n; [reflexivity|discriminate Hlen].
  - destruct n as [|y n]; [discriminate Hlen|].
    cbn [forallb] in Hp, Hn.
    apply andb_true_iff in Hp as [Hx Hp]. apply andb_true_iff in Hn as [Hy Hn].
    cbn [zip_with Tensor.rmul fmap list_fmap].
    rewrite tensor_equal_cons. apply andb_true_iff. split.
    + rewrite (F32_sub_self x Hx).
      destruct (F32_mul_zero_l false _ Hg) as [s' ->]. apply Hop, Hy.
    + apply IH; [exact Hp|exact Hn|]. simpl in Hlen. lia.
Qed.

(** X14. When the positive and the unconditional latents are the same
    finite tensor, there is no guidance: for a guidance scale that is finite
    in float32 and neutral latents of the same shape without a NaN, the
    reference that [loss] hands to [loss_fn] equals the neutral latents, under
    erase and under enhance alike. *)
Theorem X14_no_guidance_when_positive_is_unconditional :
  forall (g : spec_float) (t p n : tensor),
    is_finite (F32.of_f64 g) = true ->
    forallb is_finite p = true ->
    forallb is_number n = true ->
    length n = length p ->
    ∃ Re Rh,
      PromptPair.loss (pair observe g "erase") t p p n = Ok Re
      ∧ PromptPair.loss (pair observe g "enhance") t p p n = Ok Rh
      ∧ tensor_equal Re n = true
      ∧ tensor_equal Rh n = true.
Proof.
  intros g t p n Hg Hp Hn Hlen.
  exists (zip_with F32.sub n (Tensor.rmul (zip_with F32.sub p p) g)),
         (zip_with F32.add n (Tensor.rmul (zip_with F32.sub p p) g)).
  split; [|split; [|split]].
  - unfold PromptPair.loss. cbn [PromptPair.action pair bool_decide].
    rewrite bool_decide_eq_true_2 by reflexivity.
    rewrite _erase_reference. cbn [PromptPair.guidance_scale PromptPair.loss_fn pair].
    rewrite (erase_reference_total g p p n eq_refl Hlen). reflexivity.
  - unfold PromptPair.loss. cbn [PromptPair.action pair].
    rewrite bool_decide_eq_false_2 by discriminate.
    rewrite bool_decide_eq_true_2 by reflexivity.
    rewrite _enhance_reference. cbn [PromptPair.guidance_scale PromptPair.loss_fn pair].
    rewrite (enhance_reference_total g p p n eq_refl Hlen). reflexivity.
  - apply no_shift; [apply F32_sub_zero_r|assumption..].
  - apply no_shift; [apply F32_add_zero_r|assumption..].
Qed.

Lemma X14_witness :
  ∃ Re Rh,
    PromptPair.loss (pair observe F64.one "erase")
      [] [F32.of_Z 3; F32.of_Z 0] [F32.of_Z 3; F32.of_Z 0] [F32.of_Z 5; F32.of_Z (-7)]
    = Ok Re
    ∧ PromptPair.loss (pair observe F64.one "enhance")
        [] [F32.of_Z 3; F32.of_Z 0] [F32.of_Z 3; F32.of_Z 0] [F32.of_Z 5; F32.of_Z (-7)]
      = Ok Rh
    ∧ tensor_equal Re [F32.of_Z 5; F32.of_Z (-7)] = true
    ∧ tensor_equal Rh [F32.of_Z 5; F32.of_Z (-7)] = true.
Proof.
  apply (X14_no_guidance_when_positive_is_unconditional F64.one []
           [F32.of_Z 3; F32.of_Z 0] [F32.of_Z 5; F32.of_Z (-7)]);
    vm_compute; reflexivity.
Defined.
